(** * Portfolio script: data loading, caching and rendering

    A shallow embedding of [script.js]: the session cache
    ([getCachedData], [setCachedData]), the fetcher ([fetchWithTimeout]),
    the loader ([loadPortfolioData]), the renderers ([renderProfile],
    [renderProjects], [createProjectCard], [renderSocialLinks],
    [getDisplayLabel], [showErrorState]) and the lazy image loader
    ([loadImage], [initLazyLoading]).

    Conventions of the model:
    - a JavaScript string is a [string] whose characters are code units
      below 256;
    - a JavaScript number is an integer ([Z]); the one fractional value of
      the script, [index * 0.1], is an exact rational ([Q]);
    - data coming from the API or the cache is untyped JSON ([json]);
      [jsval] adds [undefined] and the members inherited from
      [Object.prototype];
    - statements run in a state and exception monad over the [World]
      (document, session storage, clock, console, call trace). *)

From Stdlib Require Import ZArith QArith String Ascii DecimalString.
From stdpp Require Import base option list strings gmap.

Set Warnings "-register-all".

Local Open Scope string_scope.
Local Open Scope Z_scope.

(** ** Strings *)

Module JsString.

(** [WhiteSpace] and [LineTerminator] code units below 256: TAB, LF, VT,
    FF, CR, SP and NBSP. *)
Definition is_ws (c : ascii) : bool :=
  let n := nat_of_ascii c in
  ((9 <=? n)%nat && (n <=? 13)%nat) || (n =? 32)%nat || (n =? 160)%nat.

Definition is_empty (s : string) : bool :=
  match s with EmptyString => true | String _ _ => false end.

Fixpoint trimStart (s : string) : string :=
  match s with
  | EmptyString => EmptyString
  | String c r => if is_ws c then trimStart r else s
  end.

Fixpoint trimEnd (s : string) : string :=
  match s with
  | EmptyString => EmptyString
  | String c r =>
      let r' := trimEnd r in
      if is_ws c && is_empty r' then EmptyString else String c r'
  end.

(** [String.prototype.trim]. *)
Definition trim (s : string) : string := trimEnd (trimStart s).

(** [s.split(sep)] for a separator of one code unit: the pieces between
    the occurrences of [sep]; never the empty list. *)
Fixpoint split (sep : ascii) (s : string) : list string :=
  match s with
  | EmptyString => [EmptyString]
  | String c r =>
      if Ascii.eqb c sep then EmptyString :: split sep r
      else match split sep r with
           | [] => [String c EmptyString]
           | p :: ps => String c p :: ps
           end
  end.

(** [parts.join(sep)]. *)
Fixpoint join (sep : string) (parts : list string) : string :=
  match parts with
  | [] => EmptyString
  | [p] => p
  | p :: ps => p +:+ sep +:+ join sep ps
  end.

(** [s.charAt(0)]: the first code unit as a string, empty on the empty
    string. *)
Definition charAt0 (s : string) : string :=
  match s with
  | EmptyString => EmptyString
  | String c _ => String c EmptyString
  end.

(** [s.slice(1)]. *)
Definition slice1 (s : string) : string :=
  match s with
  | EmptyString => EmptyString
  | String _ r => r
  end.

Fixpoint drop (n : nat) (s : string) : string :=
  match n, s with
  | O, _ => s
  | S n', String _ r => drop n' r
  | S _, EmptyString => EmptyString
  end.

(** [s.replace(pat, rep)] for a string pattern and a replacement without
    [$]: the first occurrence of [pat], wherever it is, is replaced. *)
Fixpoint replace (pat rep s : string) : string :=
  if String.prefix pat s then rep +:+ drop (String.length pat) s
  else match s with
       | EmptyString => EmptyString
       | String c r => String c (replace pat rep r)
       end.

(** Decimal numeral of an integer, as [Number.prototype.toString] prints
    it. *)
Definition of_Z (n : Z) : string := NilZero.string_of_int (Z.to_int n).

End JsString.

(** ** Values *)

(** What [JSON.parse] yields.  Numbers are integers; the fields of an
    object have distinct keys. *)
Inductive json : Type :=
  | JNull
  | JBool (b : bool)
  | JNum (n : Z)
  | JStr (s : string)
  | JArr (items : list json)
  | JObj (fields : list (string * json)).

(** The values the script handles: [undefined], JSON data, and the members
    every object literal inherits from [Object.prototype] (named by their
    key). *)
Inductive jsval : Type :=
  | VUndefined
  | VJson (j : json)
  | VNative (member : string).

Coercion VJson : json >-> jsval.

Definition VNull : jsval := VJson JNull.
Definition VStr (s : string) : jsval := VJson (JStr s).

(** The own property names of [Object.prototype]. *)
Definition Object_prototype_members : list string :=
  [ "constructor"; "__defineGetter__"; "__defineSetter__"; "hasOwnProperty";
    "__lookupGetter__"; "__lookupSetter__"; "isPrototypeOf";
    "propertyIsEnumerable"; "toString"; "valueOf"; "__proto__";
    "toLocaleString" ].

Definition inherited (k : string) : bool :=
  existsb (String.eqb k) Object_prototype_members.

(** Own property of an object given by its fields. *)
Fixpoint own {A : Type} (fields : list (string * A)) (k : string) : option A :=
  match fields with
  | [] => None
  | (k', v) :: rest => if String.eqb k k' then Some v else own rest k
  end.

(** [ToBoolean]. *)
Definition truthy (v : jsval) : bool :=
  match v with
  | VUndefined => false
  | VJson JNull => false
  | VJson (JBool b) => b
  | VJson (JNum n) => negb (n =? 0)
  | VJson (JStr s) => negb (JsString.is_empty s)
  | VJson (JArr _) | VJson (JObj _) => true
  | VNative _ => true
  end.

(** [ToString] of JSON data: an array prints its elements joined by commas,
    [null] elements as nothing; a plain object prints as
    [[object Object]]. *)
Fixpoint ToString_json (j : json) : string :=
  match j with
  | JNull => "null"
  | JBool true => "true"
  | JBool false => "false"
  | JNum n => JsString.of_Z n
  | JStr s => s
  | JArr items =>
      JsString.join ","
        (map (fun x => match x with JNull => "" | _ => ToString_json x end) items)
  | JObj _ => "[object Object]"
  end.

(** [ToString], as string interpolation and property keys apply it. *)
Definition ToString (v : jsval) : string :=
  match v with
  | VUndefined => "undefined"
  | VJson j => ToString_json j
  | VNative k =>
      if String.eqb k "__proto__" then "[object Object]"
      else if String.eqb k "constructor" then "function Object() { [native code] }"
      else "function " +:+ k +:+ "() { [native code] }"
  end.

(** ** Errors and results *)

Record JsError : Type := mkError { name : string; message : string }.

(** [new Error(msg)]. *)
Definition Error (msg : string) : JsError := mkError "Error" msg.
Definition TypeError (msg : string) : JsError := mkError "TypeError" msg.
Definition SyntaxError (msg : string) : JsError := mkError "SyntaxError" msg.
(** The [DOMException] a fetch rejects with when its signal aborts. *)
Definition AbortError : JsError :=
  mkError "AbortError" "signal is aborted without reason".
Definition QuotaExceededError : JsError :=
  mkError "QuotaExceededError" "The quota has been exceeded.".
Definition SecurityError : JsError :=
  mkError "SecurityError" "The operation is insecure.".

(** A completion: a value, or a thrown error. *)
Inductive result (A : Type) : Type :=
  | Ok (a : A)
  | Throw (e : JsError).
Arguments Ok {A} a.
Arguments Throw {A} e.

#[export] Instance result_ret : MRet result := fun _ a => Ok a.
#[export] Instance result_bind : MBind result := fun _ _ f m =>
  match m with Ok a => f a | Throw e => Throw e end.

(** Statements over a state [St]: the state after, and the completion.  A
    throw keeps the state reached at the point of the throw. *)
Definition M (St A : Type) : Type := St -> St * result A.

#[export] Instance M_ret {St} : MRet (M St) := fun _ a s => (s, Ok a).
#[export] Instance M_bind {St} : MBind (M St) := fun _ _ f m s =>
  match m s with
  | (s', Ok a) => f a s'
  | (s', Throw e) => (s', Throw e)
  end.

Definition throw {St A} (e : JsError) : M St A := fun s => (s, Throw e).
Definition lift {St A} (r : result A) : M St A := fun s => (s, r).
Definition gets {St A} (f : St -> A) : M St A := fun s => (s, Ok (f s)).
Definition modify {St} (f : St -> St) : M St unit := fun s => (f s, Ok tt).

(** [try { body } catch (e) { handler }]. *)
Definition try_catch {St A} (body : M St A) (handler : JsError -> M St A) : M St A :=
  fun s =>
    match body s with
    | (s', Ok a) => (s', Ok a)
    | (s', Throw e) => handler e s'
    end.

(** [xs.forEach((x, index) => body)], from [index] on. *)
Fixpoint forEach_from {St A} (index : nat) (body : A -> nat -> M St unit)
    (xs : list A) : M St unit :=
  match xs with
  | [] => mret tt
  | x :: rest => body x index ;; forEach_from (S index) body rest
  end.

Definition forEach {St A} (body : A -> nat -> M St unit) (xs : list A) : M St unit :=
  forEach_from 0 body xs.

(** Property read [v.k] for the keys the script reads: [length] and the
    data keys ([profile], [projects], [social], [name], [tags],
    [platform], [url], [success], ...).  A [TypeError] on [undefined] and
    [null]; the own property of an object; the length of an array or a
    string; [undefined] otherwise, as no prototype has one of the data
    keys. *)
Definition Get (v : jsval) (k : string) : result jsval :=
  match v with
  | VUndefined => Throw (TypeError ("Cannot read properties of undefined (reading '" +:+ k +:+ "')"))
  | VJson JNull => Throw (TypeError ("Cannot read properties of null (reading '" +:+ k +:+ "')"))
  | VJson (JObj fields) =>
      Ok (match own fields k with
          | Some j => VJson j
          | None => if inherited k then VNative k else VUndefined
          end)
  | VJson (JArr items) =>
      Ok (if String.eqb k "length" then VJson (JNum (Z.of_nat (length items)))
          else VUndefined)
  | VJson (JStr s) =>
      Ok (if String.eqb k "length" then VJson (JNum (Z.of_nat (String.length s)))
          else VUndefined)
  | _ => Ok VUndefined
  end.


(** [a || b]. *)
Definition or_else (a b : jsval) : jsval := if truthy a then a else b.

(** The result of [table[key]]. *)
Inductive entry (A : Type) : Type :=
  | Own (a : A)
  | Inherited (member : string)
  | Missing.
Arguments Own {A} a.
Arguments Inherited {A} member.
Arguments Missing {A}.

(** Lookup [table[key]] in an object literal of the script: the key is
    converted to a string; own entries first, then what the literal
    inherits from [Object.prototype]. *)
Definition table_lookup {A : Type} (table : list (string * A)) (key : jsval) : entry A :=
  let k := ToString key in
  match own table k with
  | Some a => Own a
  | None => if inherited k then Inherited k else Missing
  end.

(** ** The document *)

(** The inline SVG drawings of the script, by name; their path data is
    not modelled. *)
Inductive glyph : Type :=
  | IconEmail | IconGithub | IconLinkedin | IconTwitter | IconInstagram
  | IconWhatsapp | IconDefault | IconExternalLink.

Record Element (N : Type) : Type := mkElement {
  tagName : string;
  classList : list string;
  attributes : list (string * string);
  (** [style.transitionDelay], in seconds *)
  transitionDelay : option Q;
  childNodes : list N
}.
Arguments mkElement {N}.
Arguments tagName {N}.
Arguments classList {N}.
Arguments attributes {N}.
Arguments transitionDelay {N}.
Arguments childNodes {N}.

(** Markup assigned to [innerHTML] is kept as the tree its template
    describes, interpolated values verbatim in attribute values and text;
    white space between the elements of a template is left out. *)
Inductive Node : Type :=
  | Text (data : string)
  | Svg (g : glyph)
  | El (e : Element Node).

Definition Elem : Type := Element Node.

Definition element (tag : string) (classes : list string)
    (attrs : list (string * string)) (kids : list Node) : Node :=
  El (mkElement tag classes attrs None kids).

(** [classList.add(token)]. *)
Definition classList_add (token : string) (e : Elem) : Elem :=
  mkElement (tagName e)
    (if existsb (String.eqb token) (classList e) then classList e
     else classList e ++ [token])
    (attributes e) (transitionDelay e) (childNodes e).

Fixpoint set_assoc (k v : string) (l : list (string * string)) : list (string * string) :=
  match l with
  | [] => [(k, v)]
  | (k', v') :: rest =>
      if String.eqb k k' then (k, v) :: rest else (k', v') :: set_assoc k v rest
  end.

Definition setAttribute (k v : string) (e : Elem) : Elem :=
  mkElement (tagName e) (classList e) (set_assoc k v (attributes e))
    (transitionDelay e) (childNodes e).

Definition removeAttribute (k : string) (e : Elem) : Elem :=
  mkElement (tagName e) (classList e)
    (List.filter (fun kv => negb (String.eqb k (fst kv))) (attributes e))
    (transitionDelay e) (childNodes e).

Definition getAttribute (k : string) (e : Elem) : option string :=
  own (attributes e) k.

Definition set_childNodes (kids : list Node) (e : Elem) : Elem :=
  mkElement (tagName e) (classList e) (attributes e) (transitionDelay e) kids.

(** [e.textContent = s]: one text node, none for the empty string. *)
Definition set_textContent (s : string) (e : Elem) : Elem :=
  set_childNodes (if JsString.is_empty s then [] else [Text s]) e.

Definition appendChild (child : Node) (e : Elem) : Elem :=
  set_childNodes (childNodes e ++ [child]) e.

(** The regions of the host page the script looks up by id;
    [getElementById] gives [null] for one the page lacks. *)
Record Dom : Type := mkDom {
  hero_name : option Elem;
  hero_title : option Elem;
  hero_description : option Elem;
  logo_initial : option Elem;
  logo_name : option Elem;
  footer_text : option Elem;
  projects_grid : option Elem;
  contact_links : option Elem
}.

Inductive region : Type :=
  | HeroName | HeroTitle | HeroDescription | LogoInitial | LogoName
  | FooterText | ProjectsGrid | ContactLinks.

(** [document.getElementById]. *)
Definition getElementById (r : region) (d : Dom) : option Elem :=
  match r with
  | HeroName => hero_name d
  | HeroTitle => hero_title d
  | HeroDescription => hero_description d
  | LogoInitial => logo_initial d
  | LogoName => logo_name d
  | FooterText => footer_text d
  | ProjectsGrid => projects_grid d
  | ContactLinks => contact_links d
  end.

(** A mutation of the element with the given id, when the page has it. *)
Definition update (r : region) (f : Elem -> Elem) (d : Dom) : Dom :=
  match r with
  | HeroName => mkDom (f <$> hero_name d) (hero_title d) (hero_description d) (logo_initial d) (logo_name d) (footer_text d) (projects_grid d) (contact_links d)
  | HeroTitle => mkDom (hero_name d) (f <$> hero_title d) (hero_description d) (logo_initial d) (logo_name d) (footer_text d) (projects_grid d) (contact_links d)
  | HeroDescription => mkDom (hero_name d) (hero_title d) (f <$> hero_description d) (logo_initial d) (logo_name d) (footer_text d) (projects_grid d) (contact_links d)
  | LogoInitial => mkDom (hero_name d) (hero_title d) (hero_description d) (f <$> logo_initial d) (logo_name d) (footer_text d) (projects_grid d) (contact_links d)
  | LogoName => mkDom (hero_name d) (hero_title d) (hero_description d) (logo_initial d) (f <$> logo_name d) (footer_text d) (projects_grid d) (contact_links d)
  | FooterText => mkDom (hero_name d) (hero_title d) (hero_description d) (logo_initial d) (logo_name d) (f <$> footer_text d) (projects_grid d) (contact_links d)
  | ProjectsGrid => mkDom (hero_name d) (hero_title d) (hero_description d) (logo_initial d) (logo_name d) (footer_text d) (f <$> projects_grid d) (contact_links d)
  | ContactLinks => mkDom (hero_name d) (hero_title d) (hero_description d) (logo_initial d) (logo_name d) (footer_text d) (projects_grid d) (f <$> contact_links d)
  end.

(** Every element of a tree, children first, rewritten by [f]. *)
Fixpoint map_elements (f : Elem -> Elem) (n : Node) : Node :=
  match n with
  | El e => El (f (set_childNodes (map (map_elements f) (childNodes e)) e))
  | _ => n
  end.

Definition map_document (f : Elem -> Elem) (d : Dom) : Dom :=
  let g (o : option Elem) : option Elem :=
    match o with
    | Some e =>
        match map_elements f (El e) with El e' => Some e' | _ => Some e end
    | None => None
    end in
  mkDom (g (hero_name d)) (g (hero_title d)) (g (hero_description d))
    (g (logo_initial d)) (g (logo_name d)) (g (footer_text d))
    (g (projects_grid d)) (g (contact_links d)).

(** ** The world *)

(** [sessionStorage]: access throws when storage is disabled, and a write
    throws when the stored keys and values would exceed the quota. *)
Record Storage : Type := mkStorage {
  accessible : bool;
  quota : N;
  items : gmap string string
}.

Definition used (m : gmap string string) : N :=
  map_fold (fun k v n => (N.of_nat (String.length k + String.length v) + n)%N) 0%N m.

Definition getItem (k : string) (st : Storage) : result (option string) :=
  if accessible st then Ok (items st !! k) else Throw SecurityError.

Definition setItem (k v : string) (st : Storage) : result Storage :=
  if accessible st then
    if (used (<[k:=v]> (items st)) <=? quota st)%N
    then Ok (mkStorage (accessible st) (quota st) (<[k:=v]> (items st)))
    else Throw QuotaExceededError
  else Throw SecurityError.

Definition removeItem (k : string) (st : Storage) : result Storage :=
  if accessible st
  then Ok (mkStorage (accessible st) (quota st) (delete k (items st)))
  else Throw SecurityError.

(** What the remote end does with a request: answer with a body after a
    latency, fail at the transport level after a latency, or never
    settle.  Times are in milliseconds. *)
Inductive NetBehaviour : Type :=
  | Responds (latency : Z) (body : string)
  | Fails (latency : Z) (reason : string)
  | Hangs.

(** The calls the loader makes, recorded in order. *)
Inductive Call : Type :=
  | CallRenderProfile (profile : jsval)
  | CallRenderProjects (projects : jsval)
  | CallRenderSocialLinks (social : jsval)
  | CallInitScrollAnimations
  | CallInitLazyLoading
  | CallShowErrorState.

Record World : Type := mkWorld {
  document : Dom;
  sessionStorage : Storage;
  (** the time [Date.now()] reads, epoch milliseconds *)
  clock : Z;
  network : string -> NetBehaviour;
  (** what [console.error] received, oldest first *)
  console : list JsError;
  trace : list Call
}.

Definition with_document (f : Dom -> Dom) (w : World) : World :=
  mkWorld (f (document w)) (sessionStorage w) (clock w) (network w) (console w) (trace w).
Definition with_storage (st : Storage) (w : World) : World :=
  mkWorld (document w) st (clock w) (network w) (console w) (trace w).
Definition advance (ms : Z) (w : World) : World :=
  mkWorld (document w) (sessionStorage w) (clock w + ms) (network w) (console w) (trace w).
Definition log_error (e : JsError) (w : World) : World :=
  mkWorld (document w) (sessionStorage w) (clock w) (network w) (console w ++ [e]) (trace w).
Definition record (c : Call) (w : World) : World :=
  mkWorld (document w) (sessionStorage w) (clock w) (network w) (console w) (trace w ++ [c]).

(** The configuration object [CONFIG], defined by the host page. *)
Record Config : Type := mkConfig {
  USE_SAMPLE_DATA : bool;
  API_URL : string;
  API_TIMEOUT : Z;
  CACHE_DURATION : Z
}.

(** What the browser provides. *)
Class Platform : Type := {
  (** [JSON.parse]; [None] is a [SyntaxError] *)
  JSON_parse : string -> option json;
  JSON_stringify : json -> string;
  (** the numeric value of a string; [None] is [NaN] *)
  StringToNumber : string -> option Z;
  (** the calendar year of an instant, in the local time zone *)
  getFullYear : Z -> Z;
  (** ['IntersectionObserver' in window] *)
  IntersectionObserver_in_window : bool;
  (** the empty text is not JSON *)
  JSON_parse_empty : JSON_parse EmptyString = None
}.

(** ** The script *)

Section Script.

Context `{Platform}.
(** [CONFIG] and [SAMPLE_DATA] are globals of the host page. *)
Variable CONFIG : Config.
Variable SAMPLE_DATA : jsval.

Definition Date_now : M World Z := gets clock.

(** [ToNumber]; [None] is [NaN]. *)
Definition ToNumber (v : jsval) : option Z :=
  match v with
  | VUndefined => None
  | VJson JNull => Some 0
  | VJson (JBool b) => Some (if b then 1 else 0)
  | VJson (JNum n) => Some n
  | VJson (JStr s) => StringToNumber s
  | VJson j => StringToNumber (ToString_json j)
  | VNative _ => None
  end.

(** [now - timestamp < duration]; a comparison with [NaN] is false. *)
Definition still_valid (now : Z) (timestamp : jsval) (duration : Z) : bool :=
  match ToNumber timestamp with
  | Some t => now - t <? duration
  | None => false
  end.

Definition storage_getItem (k : string) : M World (option string) :=
  fun w => (w, getItem k (sessionStorage w)).

Definition storage_setItem (k v : string) : M World unit :=
  fun w =>
    match setItem k v (sessionStorage w) with
    | Ok st => (with_storage st w, Ok tt)
    | Throw e => (w, Throw e)
    end.

Definition storage_removeItem (k : string) : M World unit :=
  fun w =>
    match removeItem k (sessionStorage w) with
    | Ok st => (with_storage st w, Ok tt)
    | Throw e => (w, Throw e)
    end.

Definition parse (text : string) : result json :=
  match JSON_parse text with
  | Some j => Ok j
  | None => Throw (SyntaxError "JSON.parse: unexpected input")
  end.

(** *** Cache store *)

Definition getCachedData : M World jsval :=
  try_catch
    (cached ← storage_getItem "portfolio_data";
     match cached with
     | None | Some EmptyString => mret VNull
     | Some text =>
         parsed ← lift (parse text);
         data ← lift (Get (VJson parsed) "data");
         timestamp ← lift (Get (VJson parsed) "timestamp");
         now ← Date_now;
         if still_valid now timestamp (CACHE_DURATION CONFIG) then mret data
         else storage_removeItem "portfolio_data";; mret VNull
     end)
    (fun _ => mret VNull).

(** The object [{ data, timestamp }] as [JSON.stringify] sees it: a
    property whose value is [undefined] or a function is skipped. *)
Definition envelope (data : jsval) (timestamp : Z) : json :=
  JObj (match data with VJson j => [("data", j)] | _ => [] end
        ++ [("timestamp", JNum timestamp)]).

Definition setCachedData (data : jsval) : M World unit :=
  try_catch
    (now ← Date_now;
     storage_setItem "portfolio_data" (JSON_stringify (envelope data now)))
    (fun _ => mret tt).

(** *** Fetcher *)

(** [fetch(url, { signal })] with the abort timer armed by
    [setTimeout(() => controller.abort(), timeout)]: the call settles as
    the remote end behaves if that happens within the delay, and rejects
    with an [AbortError] at the delay otherwise.  A transport failure
    is a [TypeError]. *)
Definition fetch (url : string) (timeout : Z) : M World string :=
  fun w =>
    let delay := Z.max 0 timeout in
    match network w url with
    | Responds latency body =>
        if latency <=? delay then (advance latency w, Ok body)
        else (advance delay w, Throw AbortError)
    | Fails latency reason =>
        if latency <=? delay then (advance latency w, Throw (TypeError reason))
        else (advance delay w, Throw AbortError)
    | Hangs => (advance delay w, Throw AbortError)
    end.

Definition fetchWithTimeout (url : string) (timeout : Z) : M World json :=
  try_catch
    (response ← fetch url timeout;
     lift (parse response))
    (fun error =>
       if String.eqb (name error) "AbortError"
       then throw (Error "Request timeout")
       else throw error).

(** *** Lazy image loader *)

Definition loadImage (img : Elem) : Elem :=
  match getAttribute "data-src" img with
  | None | Some EmptyString => img
  | Some src =>
      classList_add "loaded" (removeAttribute "data-src" (setAttribute "src" src img))
  end.

(** Without [IntersectionObserver] every [img[data-src]] is loaded at
    once; with it the images are only observed, and [loadImage] runs
    from the observer on a later intersection. *)
Definition initLazyLoading : M World unit :=
  modify (record CallInitLazyLoading);;
  if IntersectionObserver_in_window then mret tt
  else modify (with_document (map_document (fun e =>
         if String.eqb (tagName e) "img" && bool_decide (is_Some (getAttribute "data-src" e))
         then loadImage e else e))).

Definition has_class (c : string) (e : Elem) : bool :=
  existsb (String.eqb c) (classList e).

Definition initScrollAnimations : M World unit :=
  modify (record CallInitScrollAnimations);;
  if IntersectionObserver_in_window then mret tt
  else modify (with_document (map_document (fun e =>
         if has_class "fade-in" e && negb (has_class "visible" e)
         then classList_add "visible" e else e))).

(** *** Renderers *)

Definition text_nodes (s : string) : list Node :=
  if JsString.is_empty s then [] else [Text s].

(** [el.textContent = v; el.classList.add('loaded')] on a region. *)
Definition fill (r : region) (v : jsval) : M World unit :=
  modify (with_document (update r (fun e =>
    classList_add "loaded" (set_textContent (ToString v) e)))).

Definition present (r : region) : M World bool :=
  gets (fun w => bool_decide (is_Some (getElementById r (document w)))).

(** A string method called on [v]: a [TypeError] when [v] is not a
    string. *)
Definition as_string (method : string) (v : jsval) : result string :=
  match v with
  | VJson (JStr s) => Ok s
  | VUndefined | VJson JNull =>
      Throw (TypeError ("Cannot read properties of " +:+ ToString v +:+ " (reading '" +:+ method +:+ "')"))
  | _ => Throw (TypeError (method +:+ " is not a function"))
  end.

(** The logo label of a name: [(logoInitial, logoName)]. *)
Definition logo (name : string) : string * string :=
  let nameParts := JsString.split " " name in
  if (1 <? length nameParts)%nat
  then (JsString.charAt0 (hd EmptyString nameParts),
        JsString.join " " (tl nameParts))
  else (JsString.charAt0 name, JsString.slice1 name).

Definition renderProfile (profile : jsval) : M World unit :=
  modify (record (CallRenderProfile profile));;
  if negb (truthy profile) then mret tt
  else
    name ← lift (Get profile "name");
    tagline ← lift (Get profile "tagline");
    description ← lift (Get profile "description");
    (if truthy name then fill HeroName name else mret tt);;
    (if truthy tagline then fill HeroTitle tagline else mret tt);;
    (if truthy description then fill HeroDescription description else mret tt);;
    logoInitial ← present LogoInitial;
    logoName ← present LogoName;
    (if logoInitial && logoName && truthy name then
       s ← lift (as_string "split" name);
       modify (with_document (update LogoInitial (set_textContent (fst (logo s)))));;
       modify (with_document (update LogoName (set_textContent (snd (logo s)))))
     else mret tt);;
    (if truthy name then
       now ← Date_now;
       let year := getFullYear now in
       modify (with_document (update FooterText (set_textContent
         (String (ascii_of_nat 169) " " +:+ JsString.of_Z year +:+ " "
          +:+ ToString name +:+ ". Hak Cipta Dilindungi."))))
     else mret tt).

Definition placeholderSvg : string :=
  "data:image/svg+xml,%3Csvg xmlns='http://www.w3.org/2000/svg' viewBox='0 0 400 250'%3E%3Crect fill='%23111' width='400' height='250'/%3E%3C/svg%3E".

(** The tags of a project card: an array is taken as it is; anything
    else is [(tags || '').split(',').map(t => t.trim()).filter(t => t)]. *)
Definition card_tags (tags : jsval) : result (list json) :=
  match tags with
  | VJson (JArr items) => Ok items
  | _ =>
      s ← as_string "split" (or_else tags (VStr ""));
      Ok (JStr <$> List.filter (fun t => negb (JsString.is_empty t))
                     (JsString.trim <$> JsString.split "," s))
  end.

(** [index * 0.1]. *)
Definition stagger (index : nat) : Q := (inject_Z (Z.of_nat index) * (1 # 10))%Q.

Definition createProjectCard (project : jsval) (index : nat) : result Node :=
  project_tags ← Get project "tags";
  tags ← card_tags project_tags;
  image_url ← Get project "image_url";
  title ← Get project "title";
  link_project ← Get project "link_project";
  description ← Get project "description";
  Ok (El (mkElement "article" ["project-card"; "fade-in"] [] (Some (stagger index))
    [ element "div" ["project-image"] []
        [ element "img" []
            [ ("src", placeholderSvg);
              ("data-src", ToString image_url);
              ("alt", ToString title);
              ("loading", "lazy");
              ("decoding", "async");
              ("onerror", "this.src='" +:+ placeholderSvg +:+ "'; this.classList.add('error')") ]
            [];
          element "div" ["project-overlay"] []
            [ element "a" ["project-link"]
                [ ("href", ToString link_project);
                  ("target", "_blank");
                  ("rel", "noopener noreferrer") ]
                [ Svg IconExternalLink; Text "Lihat Proyek" ] ] ];
      element "div" ["project-info"] []
        [ element "h3" ["project-title"] [] (text_nodes (ToString title));
          element "p" ["project-desc"] [] (text_nodes (ToString description));
          element "div" ["project-tags"] []
            ((fun tag : json => element "span" ["tag"] [] (text_nodes (ToString tag)))
               <$> tags) ] ])).

(** [xs.forEach]: only an array has it. *)
Definition array_forEach (xs : jsval) (body : jsval -> nat -> M World unit) : M World unit :=
  match xs with
  | VJson (JArr items) => forEach (fun x => body (VJson x)) items
  | _ => throw (TypeError "forEach is not a function")
  end.

Definition is_zero (v : jsval) : bool :=
  match v with VJson (JNum 0) => true | _ => false end.

Definition renderProjects (projects : jsval) : M World unit :=
  modify (record (CallRenderProjects projects));;
  grid ← present ProjectsGrid;
  if negb grid || negb (truthy projects) then mret tt
  else
    len ← lift (Get projects "length");
    if is_zero len then mret tt
    else
      modify (with_document (update ProjectsGrid (set_childNodes [])));;
      array_forEach projects (fun project index =>
        card ← lift (createProjectCard project index);
        modify (with_document (update ProjectsGrid (appendChild card)))).

Definition icons : list (string * glyph) :=
  [ ("email", IconEmail); ("github", IconGithub); ("linkedin", IconLinkedin);
    ("twitter", IconTwitter); ("instagram", IconInstagram);
    ("whatsapp", IconWhatsapp); ("default", IconDefault) ].

Definition platformLabels : list (string * string) :=
  [ ("github", "GitHub"); ("linkedin", "LinkedIn"); ("twitter", "Twitter");
    ("instagram", "Instagram"); ("whatsapp", "WhatsApp"); ("website", "Website") ].

Definition is_email (platform : jsval) : bool :=
  match platform with VJson (JStr s) => String.eqb s "email" | _ => false end.

Definition getDisplayLabel (link : jsval) : result jsval :=
  platform ← Get link "platform";
  if is_email platform then
    url ← Get link "url";
    s ← as_string "replace" url;
    Ok (VStr (JsString.replace "mailto:" "" s))
  else
    Ok (match table_lookup platformLabels platform with
        | Own label => VStr label
        | Inherited member => VNative member
        | Missing => or_else platform (VStr "Link")
        end).

(** [icons[link.icon] || icons[link.platform] || icons.default], as the
    node its markup gives. *)
Definition icon_node (icon platform : jsval) : Node :=
  match table_lookup icons icon with
  | Own g => Svg g
  | Inherited member => Text (ToString (VNative member))
  | Missing =>
      match table_lookup icons platform with
      | Own g => Svg g
      | Inherited member => Text (ToString (VNative member))
      | Missing => Svg IconDefault
      end
  end.

Definition renderSocialLinks (social : jsval) : M World unit :=
  modify (record (CallRenderSocialLinks social));;
  container ← present ContactLinks;
  if negb container || negb (truthy social) then mret tt
  else
    len ← lift (Get social "length");
    if is_zero len then mret tt
    else
      modify (with_document (update ContactLinks (set_childNodes [])));;
      array_forEach social (fun link _ =>
        url ← lift (Get link "url");
        platform ← lift (Get link "platform");
        icon ← lift (Get link "icon");
        label ← lift (getDisplayLabel link);
        let a := element "a" ["contact-link"]
                   [ ("href", ToString url);
                     ("target", if is_email platform then "_self" else "_blank");
                     ("rel", "noopener noreferrer") ]
                   [ icon_node icon platform; Text (" " +:+ ToString label) ] in
        modify (with_document (update ContactLinks (appendChild a)))).

Definition error_state : list Node :=
  [ element "div" ["error-state"] []
      [ element "p" [] [] [ Text "Tidak dapat memuat proyek. Silakan coba lagi nanti." ];
        element "button" ["btn"; "btn-secondary"]
          [ ("onclick", "location.reload()"); ("style", "margin-top: 1rem;") ]
          [ Text "Muat Ulang" ] ] ].

Definition showErrorState : M World unit :=
  modify (record CallShowErrorState);;
  modify (with_document (update ProjectsGrid (set_childNodes error_state))).

(** [await delay(ms)]. *)
Definition delay (ms : Z) : M World unit := modify (advance ms).

(** *** Data loader *)

(** The data of a load: the sample, the cache, or the API. *)
Definition resolveData : M World jsval :=
  if USE_SAMPLE_DATA CONFIG then
    delay 300;;
    mret SAMPLE_DATA
  else
    data ← getCachedData;
    if negb (truthy data) then
      response ← fetchWithTimeout (API_URL CONFIG +:+ "?action=all") (API_TIMEOUT CONFIG);
      success ← lift (Get (VJson response) "success");
      if truthy success then
        data ← lift (Get (VJson response) "data");
        setCachedData data;;
        mret data
      else
        error ← lift (Get (VJson response) "error");
        throw (Error (ToString (or_else error (VStr "Gagal memuat data"))))
    else mret data.

(** The rest of the [try] block: the three renderers, then the observers
    for what they inserted. *)
Definition renderData (data : jsval) : M World unit :=
  profile ← lift (Get data "profile");
  renderProfile profile;;
  projects ← lift (Get data "projects");
  renderProjects projects;;
  social ← lift (Get data "social");
  renderSocialLinks social;;
  initScrollAnimations;;
  initLazyLoading.

Definition loadPortfolioData : M World unit :=
  try_catch
    (data ← resolveData;
     renderData data)
    (fun error =>
       modify (log_error error);;
       showErrorState).

End Script.

(** ** Navigation and scroll effects *)

(** [classList.remove(token)]. *)
Definition classList_remove (token : string) (e : Elem) : Elem :=
  mkElement (tagName e)
    (List.filter (fun c => negb (String.eqb token c)) (classList e))
    (attributes e) (transitionDelay e) (childNodes e).

(** [classList.toggle(token)]. *)
Definition classList_toggle (token : string) (e : Elem) : Elem :=
  if existsb (String.eqb token) (classList e)
  then classList_remove token e
  else classList_add token e.

(** A [section] element with its layout. *)
Record Box : Type := mkBox {
  box_element : Elem;
  offsetTop : Z;
  offsetHeight : Z
}.

(** The element [.navbar]: its [offsetHeight] and [style.background]. *)
Record Bar : Type := mkBar {
  bar_height : Z;
  bar_background : string
}.

(** What the navigation and the scroll effects read and write: the
    elements their selectors find ([null] for a missing one), the scroll
    position in whole pixels, the throttle flag [ticking], and the number
    of callbacks that [requestAnimationFrame] holds.  The toggle, the menu
    and the links are distinct elements. *)
Record Chrome : Type := mkChrome {
  navbar : option Bar;
  page_sections : list Box;
  nav_links : list Elem;
  nav_toggle : option Elem;
  nav_menu : option Elem;
  scrollY : Z;
  ticking : bool;
  frames : nat
}.

Definition set_navbar (b : option Bar) (c : Chrome) : Chrome :=
  mkChrome b (page_sections c) (nav_links c) (nav_toggle c) (nav_menu c)
    (scrollY c) (ticking c) (frames c).
Definition set_nav_links (links : list Elem) (c : Chrome) : Chrome :=
  mkChrome (navbar c) (page_sections c) links (nav_toggle c) (nav_menu c)
    (scrollY c) (ticking c) (frames c).
Definition set_scrollY (y : Z) (c : Chrome) : Chrome :=
  mkChrome (navbar c) (page_sections c) (nav_links c) (nav_toggle c) (nav_menu c)
    y (ticking c) (frames c).
Definition set_ticking (b : bool) (c : Chrome) : Chrome :=
  mkChrome (navbar c) (page_sections c) (nav_links c) (nav_toggle c) (nav_menu c)
    (scrollY c) b (frames c).
Definition set_frames (n : nat) (c : Chrome) : Chrome :=
  mkChrome (navbar c) (page_sections c) (nav_links c) (nav_toggle c) (nav_menu c)
    (scrollY c) (ticking c) n.
(** The same mutation of [.nav-toggle] and [.nav-menu]. *)
Definition on_toggle_and_menu (f : Elem -> Elem) (c : Chrome) : Chrome :=
  mkChrome (navbar c) (page_sections c) (nav_links c)
    (f <$> nav_toggle c) (f <$> nav_menu c)
    (scrollY c) (ticking c) (frames c).

(** *** Navigation *)

(** [initNavigation] adds its listeners only when it finds both the
    toggle and the menu. *)
Definition initNavigation (c : Chrome) : bool :=
  bool_decide (is_Some (nav_toggle c)) && bool_decide (is_Some (nav_menu c)).

(** The listeners: a click on the toggle, a click on a navigation link,
    and the listener of the document, which is told whether the toggle or
    the menu contains the target of the click. *)
Inductive NavEvent : Type :=
  | ToggleClick
  | LinkClick
  | DocumentClick (in_toggle in_menu : bool).

Definition navigation_listener (ev : NavEvent) (c : Chrome) : Chrome :=
  if initNavigation c then
    match ev with
    | ToggleClick => on_toggle_and_menu (classList_toggle "active") c
    | LinkClick => on_toggle_and_menu (classList_remove "active") c
    | DocumentClick in_toggle in_menu =>
        if negb in_toggle && negb in_menu
        then on_toggle_and_menu (classList_remove "active") c
        else c
    end
  else c.

(** *** Scroll effects *)

Definition updateNavbar : M Chrome unit :=
  fun c =>
    match navbar c with
    | Some bar =>
        (set_navbar (Some (mkBar (bar_height bar)
                             (if 50 <? scrollY c then "rgba(10, 10, 10, 0.95)"
                              else "rgba(10, 10, 10, 0.85)"))) c,
         Ok tt)
    | None => (c, Throw (TypeError "Cannot read properties of null (reading 'style')"))
    end.

(** [window.scrollY >= sectionTop && window.scrollY < sectionTop + sectionHeight]. *)
Definition in_view (navHeight y : Z) (section : Box) : bool :=
  let sectionTop := offsetTop section - navHeight - 100 in
  let sectionHeight := offsetHeight section in
  (sectionTop <=? y) && (y <? sectionTop + sectionHeight).

(** [section.getAttribute('id')], on an element the selector
    [section[id]] found. *)
Definition section_id (section : Box) : string :=
  default EmptyString (getAttribute "id" (box_element section)).

(** The loop over the sections: [current] after it. *)
Definition current_section (navHeight y : Z) (sections : list Box) : string :=
  fold_left
    (fun current section =>
       if in_view navHeight y section then section_id section else current)
    sections EmptyString.

(** The body of the loop over the links. *)
Definition mark_link (current : string) (link : Elem) : Elem :=
  let link := classList_remove "active" link in
  if bool_decide (getAttribute "href" link = Some ("#" +:+ current))
  then classList_add "active" link
  else link.

Definition updateActiveLink : M Chrome unit :=
  fun c =>
    let sections :=
      List.filter (fun s => bool_decide (is_Some (getAttribute "id" (box_element s))))
        (page_sections c) in
    match navbar c with
    | Some bar =>
        let current := current_section (bar_height bar) (scrollY c) sections in
        (set_nav_links (mark_link current <$> nav_links c) c, Ok tt)
    | None =>
        (c, Throw (TypeError "Cannot read properties of null (reading 'offsetHeight')"))
    end.

(** The listener of [scroll]. *)
Definition onScroll : M Chrome unit :=
  fun c =>
    if ticking c then (c, Ok tt)
    else (set_ticking true (set_frames (S (frames c)) c), Ok tt).

(** The callback given to [requestAnimationFrame]. *)
Definition frameCallback : M Chrome unit :=
  updateNavbar;;
  updateActiveLink;;
  modify (set_ticking false).

(** What happens to the page: it is scrolled to a position, which fires
    [scroll], or the browser runs one of the callbacks it holds for the
    next frame.  An error thrown by a callback is reported by the browser
    and the state stays as the callback left it. *)
Inductive ScrollEvent : Type :=
  | Scrolled (y : Z)
  | AnimationFrame.

Definition scroll_step (c : Chrome) (ev : ScrollEvent) : Chrome :=
  match ev with
  | Scrolled y => fst (onScroll (set_scrollY y c))
  | AnimationFrame =>
      match frames c with
      | O => c
      | S n => fst (frameCallback (set_frames n c))
      end
  end.

Definition scroll_run (evs : list ScrollEvent) (c : Chrome) : Chrome :=
  fold_left scroll_step evs c.


(** ** A reference platform

    A concrete browser to run the script on: a JSON printer in the format
    of [JSON.stringify] and a reader of JSON texts over the values of the
    model, decimal integers as the numeric strings, and the calendar year
    in UTC. *)

Module Reference.

Definition dquote : ascii := "034"%char.
Definition backslash : ascii := "092"%char.

Fixpoint escape (s : string) : string :=
  match s with
  | EmptyString => EmptyString
  | String c r =>
      if Ascii.eqb c dquote || Ascii.eqb c backslash
      then String backslash (String c (escape r))
      else String c (escape r)
  end.

Definition quote (s : string) : string :=
  String dquote (escape s +:+ String dquote EmptyString).

Fixpoint stringify (j : json) : string :=
  match j with
  | JNull => "null"
  | JBool true => "true"
  | JBool false => "false"
  | JNum n => JsString.of_Z n
  | JStr s => quote s
  | JArr items => "[" +:+ JsString.join "," (map stringify items) +:+ "]"
  | JObj fields =>
      "{" +:+ JsString.join ","
                (map (fun kv => quote (fst kv) +:+ ":" +:+ stringify (snd kv)) fields)
          +:+ "}"
  end.

(** The characters of a string literal after its opening quote, and what
    follows the closing quote. *)
Fixpoint read_string (s : string) : option (string * string) :=
  match s with
  | EmptyString => None
  | String c r =>
      if Ascii.eqb c dquote then Some (EmptyString, r)
      else if Ascii.eqb c backslash then
        match r with
        | String c2 r2 =>
            if Ascii.eqb c2 dquote || Ascii.eqb c2 backslash
            then '(t, rest) ← read_string r2; Some (String c2 t, rest)
            else None
        | EmptyString => None
        end
      else '(t, rest) ← read_string r; Some (String c t, rest)
  end.

Definition is_digit (c : ascii) : bool :=
  let n := nat_of_ascii c in (48 <=? n)%nat && (n <=? 57)%nat.

Fixpoint read_digits (s : string) : string * string :=
  match s with
  | String c r =>
      if is_digit c then let '(ds, rest) := read_digits r in (String c ds, rest)
      else (EmptyString, s)
  | EmptyString => (EmptyString, EmptyString)
  end.

Definition read_number (s : string) : option (json * string) :=
  let '(sign, body) :=
    match s with
    | String "-" r => ("-", r)
    | _ => (EmptyString, s)
    end in
  let '(ds, rest) := read_digits body in
  if JsString.is_empty ds then None
  else n ← NilZero.int_of_string (sign +:+ ds); Some (JNum (Z.of_int n), rest).

Definition skip_ws (s : string) : string := JsString.trimStart s.

Fixpoint read_value (fuel : nat) (s : string) : option (json * string) :=
  match fuel with
  | O => None
  | S fuel' =>
      let s := skip_ws s in
      if String.prefix "null" s then Some (JNull, JsString.drop 4 s)
      else if String.prefix "true" s then Some (JBool true, JsString.drop 4 s)
      else if String.prefix "false" s then Some (JBool false, JsString.drop 5 s)
      else match s with
           | String "[" r =>
               match skip_ws r with
               | String "]" r' => Some (JArr [], r')
               | _ => '(items, rest) ← read_items fuel' r; Some (JArr items, rest)
               end
           | String "{" r =>
               match skip_ws r with
               | String "}" r' => Some (JObj [], r')
               | _ => '(fields, rest) ← read_members fuel' r; Some (JObj fields, rest)
               end
           | String c r =>
               if Ascii.eqb c dquote
               then '(t, rest) ← read_string r; Some (JStr t, rest)
               else read_number s
           | EmptyString => None
           end
  end
with read_items (fuel : nat) (s : string) : option (list json * string) :=
  match fuel with
  | O => None
  | S fuel' =>
      '(v, rest) ← read_value fuel' s;
      match skip_ws rest with
      | String "," r => '(vs, rest') ← read_items fuel' r; Some (v :: vs, rest')
      | String "]" r => Some ([v], r)
      | _ => None
      end
  end
with read_members (fuel : nat) (s : string) : option (list (string * json) * string) :=
  match fuel with
  | O => None
  | S fuel' =>
      match skip_ws s with
      | String c r =>
          if Ascii.eqb c dquote then
            '(k, rest) ← read_string r;
            match skip_ws rest with
            | String ":" r1 =>
                '(v, rest1) ← read_value fuel' r1;
                match skip_ws rest1 with
                | String "," r2 =>
                    '(kvs, rest2) ← read_members fuel' r2; Some ((k, v) :: kvs, rest2)
                | String "}" r2 => Some ([(k, v)], r2)
                | _ => None
                end
            | _ => None
            end
          else None
      | EmptyString => None
      end
  end.

Definition read (text : string) : option json :=
  match read_value (2 * String.length text + 2) text with
  | Some (j, rest) => if JsString.is_empty (skip_ws rest) then Some j else None
  | None => None
  end.

Definition number_of_string (s : string) : option Z :=
  let t := JsString.trim s in
  if JsString.is_empty t then Some 0 else Z.of_int <$> NilZero.int_of_string t.

(** The year of the day [ms / 86400000] of the proleptic Gregorian
    calendar. *)
Definition utc_year (ms : Z) : Z :=
  let z := ms / 86400000 + 719468 in
  let era := z / 146097 in
  let doe := z - era * 146097 in
  let yoe := (doe - doe / 1460 + doe / 36524 - doe / 146096) / 365 in
  let doy := doe - (365 * yoe + yoe / 4 - yoe / 100) in
  let mp := (5 * doy + 2) / 153 in
  yoe + era * 400 + (if mp <? 10 then 0 else 1).

Definition platform : Platform :=
  {| JSON_parse := read;
     JSON_stringify := stringify;
     StringToNumber := number_of_string;
     getFullYear := utc_year;
     IntersectionObserver_in_window := true;
     JSON_parse_empty := eq_refl |}.

End Reference.

(** ** Vocabulary of the properties *)

Definition first_is_ws (s : string) : bool :=
  match s with
  | EmptyString => false
  | String c _ => JsString.is_ws c
  end.

Fixpoint last_is_ws (s : string) : bool :=
  match s with
  | EmptyString => false
  | String c EmptyString => JsString.is_ws c
  | String _ r => last_is_ws r
  end.

(** A trimmed, non-empty string: it has a character, and neither its first
    nor its last one is white space. *)
Definition trimmed_nonempty (s : string) : Prop :=
  s ≠ EmptyString ∧ first_is_ws s = false ∧ last_is_ws s = false.

Definition is_trimmed_nonempty (s : string) : bool :=
  negb (JsString.is_empty s) && negb (first_is_ws s) && negb (last_is_ws s).

(** [c] occurs in [s]. *)
Fixpoint has_char (c : ascii) (s : string) : bool :=
  match s with
  | EmptyString => false
  | String c' r => Ascii.eqb c' c || has_char c r
  end.

(** [pat] occurs in [s]. *)
Fixpoint occurs (pat s : string) : bool :=
  String.prefix pat s ||
  match s with
  | EmptyString => false
  | String _ r => occurs pat r
  end.

(** [pat] occurs in [pre ++ rest] at a position inside [pre]. *)
Fixpoint starts_before (pat pre rest : string) : bool :=
  match pre with
  | EmptyString => false
  | String c pre' =>
      String.prefix pat (pre +:+ rest) || starts_before pat pre' rest
  end.

(** The pieces of [s] between the characters that satisfy [p]. *)
Fixpoint split_by (p : ascii -> bool) (s : string) : list string :=
  match s with
  | EmptyString => [EmptyString]
  | String c r =>
      if p c then EmptyString :: split_by p r
      else match split_by p r with
           | [] => [String c EmptyString]
           | q :: qs => String c q :: qs
           end
  end.

(** The logo label as the specification words it: the name split on white
    space into tokens; with more than one token, the first character of
    the first token and the remaining tokens joined; otherwise the first
    character of the name and the rest of it. *)
Definition tokens (s : string) : list string :=
  List.filter (fun t => negb (JsString.is_empty t)) (split_by JsString.is_ws s).

Definition logo_on_whitespace (name : string) : string * string :=
  let toks := tokens name in
  if (1 <? length toks)%nat
  then (JsString.charAt0 (hd EmptyString toks), JsString.join " " (tl toks))
  else (JsString.charAt0 name, JsString.slice1 name).

(** The display label as the specification words it: for the platform
    [email] the URL without a leading [mailto:], any other URL unchanged;
    otherwise the table entry, else the platform, else [Link]. *)
Definition strip_prefix (pre s : string) : string :=
  if String.prefix pre s then JsString.drop (String.length pre) s else s.

Definition label_by_prefix (platform url : string) : string :=
  if String.eqb platform "email" then strip_prefix "mailto:" url
  else match own platformLabels platform with
       | Some label => label
       | None => if JsString.is_empty platform then "Link" else platform
       end.

(** The abort timer of a fetch fires before the remote end settles. *)
Definition timer_fires_first (timeout : Z) (b : NetBehaviour) : Prop :=
  match b with
  | Responds latency _ | Fails latency _ => Z.max 0 timeout < latency
  | Hangs => True
  end.

(** A project of the data model: an object whose [tags], when it has
    them, are a string or an array. *)
Definition is_project (p : json) : bool :=
  match p with
  | JObj fields =>
      match own fields "tags" with
      | None | Some (JStr _) | Some (JArr _) => true
      | Some _ => false
      end
  | _ => false
  end.

(** Some element of the tree satisfies [p]. *)
Fixpoint some_element (p : Elem -> bool) (n : Node) : bool :=
  match n with
  | El e => p e || existsb (some_element p) (childNodes e)
  | _ => false
  end.


Section Situations.

Context `{Platform}.
Variable CONFIG : Config.

(** The address the loader fetches. *)
Definition api_url : string := API_URL CONFIG +:+ "?action=all".

(** The load goes to the network: the sample mode is off and the cache
    read, which leaves the world [w0], gives nothing to use. *)
Definition misses_cache (w w0 : World) : Prop :=
  USE_SAMPLE_DATA CONFIG = false
  /\ exists miss : jsval,
       getCachedData CONFIG w = (w0, Ok miss) /\ truthy miss = false.

(** The API answers within the timeout with a JSON text. *)
Definition api_answers (w0 : World) (latency : Z) (response : json) : Prop :=
  exists body : string,
    network w0 api_url = Responds latency body
    /\ latency <= Z.max 0 (API_TIMEOUT CONFIG)
    /\ JSON_parse body = Some response.


End Situations.

(** ** Sample inputs *)

Module Sample.

Definition blank (tag : string) : Elem := mkElement tag [] [] None [].

(** A host page with every region, the grid showing a loading note. *)
Definition page : Dom :=
  mkDom (Some (blank "h1")) (Some (blank "p")) (Some (blank "p"))
    (Some (blank "span")) (Some (blank "span")) (Some (blank "p"))
    (Some (mkElement "div" ["projects-grid"] [] None [Text "Memuat..."]))
    (Some (blank "div")).

Definition config : Config :=
  {| USE_SAMPLE_DATA := false;
     API_URL := "https://example.org/api";
     API_TIMEOUT := 10000;
     CACHE_DURATION := 300000 |}.

Definition storage : Storage :=
  {| accessible := true; quota := 5000000; items := ∅ |}.

Definition full_storage : Storage :=
  {| accessible := true; quota := 0; items := ∅ |}.

Definition world (st : Storage) (net : NetBehaviour) : World :=
  {| document := page; sessionStorage := st; clock := 1700000000000;
     network := fun _ => net; console := []; trace := [] |}.

Definition project (title tags : string) : json :=
  JObj [ ("id", JNum 1); ("title", JStr title); ("description", JStr "demo");
         ("image_url", JStr "https://example.org/a.png");
         ("link_project", JStr "https://example.org/a");
         ("tags", JStr tags) ].

Definition data : json :=
  JObj [ ("profile", JObj [ ("name", JStr "Jane Doe"); ("tagline", JStr "Engineer") ]);
         ("projects", JArr [ project "One" "a, b ,c"; project "Two" "x"; project "Three" "" ]);
         ("social", JArr [ JObj [ ("platform", JStr "github"); ("url", JStr "https://github.com/jane") ];
                           JObj [ ("platform", JStr "email"); ("url", JStr "mailto:jane@example.org") ] ]) ].

Definition tab : string := String "009"%char EmptyString.

Definition acceptance : json := JObj [("success", JBool true); ("data", data)].

End Sample.

(** ** Vocabulary of the further properties *)

(** [w'] is [w] outside the document and the trace. *)
Definition same_outside_document (w w' : World) : Prop :=
  sessionStorage w' = sessionStorage w
  /\ clock w' = clock w
  /\ network w' = network w
  /\ console w' = console w.

(** [w'] shows the same page as [w]: document, trace and console. *)
Definition same_page (w w' : World) : Prop :=
  document w' = document w /\ trace w' = trace w /\ console w' = console w.

(** [w'] has the projects grid and the contact links of [w]. *)
Definition same_lists (w w' : World) : Prop :=
  projects_grid (document w') = projects_grid (document w)
  /\ contact_links (document w') = contact_links (document w).

(** A statement that keeps a relation between the world before and the
    world after it, however it completes. *)
Definition keeps {A : Type} (R : World -> World -> Prop) (m : M World A) : Prop :=
  forall w : World, R w (fst (m w)).

(** The entries of [st'] are those of [st], but for the entry [k]. *)
Definition same_but (k : string) (st st' : Storage) : Prop :=
  accessible st' = accessible st
  /\ quota st' = quota st
  /\ forall k' : string, k' ≠ k -> items st' !! k' = items st !! k'.


(** An image that still waits for its source: an [img] with a non-empty
    [data-src]. *)
Definition pending_image (e : Elem) : bool :=
  String.eqb (tagName e) "img" &&
  match getAttribute "data-src" e with
  | Some (String _ _) => true
  | _ => false
  end.

(** An element that fades in and is not visible yet:
    [.fade-in:not(.visible)]. *)
Definition unrevealed (e : Elem) : bool :=
  has_class "fade-in" e && negb (has_class "visible" e).

(** The regions the page has. *)
Definition region_elements (d : Dom) : list Elem :=
  omap id [ hero_name d; hero_title d; hero_description d; logo_initial d;
            logo_name d; footer_text d; projects_grid d; contact_links d ].

(** Some element in a region of the page satisfies [p]. *)
Definition in_document (p : Elem -> bool) (d : Dom) : bool :=
  existsb (fun e => some_element p (El e)) (region_elements d).


Section NodeInduction.

Variable P : Node -> Prop.
Hypothesis P_Text : forall s : string, P (Text s).
Hypothesis P_Svg : forall g : glyph, P (Svg g).
Hypothesis P_El : forall e : Elem, Forall P (childNodes e) -> P (El e).

(** Induction on a tree, with the property for all the children of an
    element. *)
Fixpoint Node_nested_ind (n : Node) : P n :=
  match n with
  | Text s => P_Text s
  | Svg g => P_Svg g
  | El e =>
      P_El e
        ((fix children (l : list Node) : Forall P l :=
            match l with
            | [] => List.Forall_nil P
            | k :: ks => List.Forall_cons P k ks (Node_nested_ind k) (children ks)
            end) (childNodes e))
  end.

End NodeInduction.

(** The number of occurrences of [c] in [s]. *)
Fixpoint count_char (c : ascii) (s : string) : nat :=
  match s with
  | EmptyString => O
  | String c' r => (if Ascii.eqb c' c then 1 else 0) + count_char c r
  end.

(** The element, if there is one, has the class [active]. *)
Definition is_active (o : option Elem) : bool :=
  match o with
  | Some e => has_class "active" e
  | None => false
  end.

(** The listeners of the navigation, run in the order of the events. *)
Definition navigation_run (evs : list NavEvent) (c : Chrome) : Chrome :=
  fold_left (fun c ev => navigation_listener ev c) evs c.

(** The background [updateNavbar] gives at a scroll position. *)
Definition background_at (y : Z) : string :=
  if 50 <? y then "rgba(10, 10, 10, 0.95)" else "rgba(10, 10, 10, 0.85)".

(** The throttle is idle or armed: a callback is held exactly when
    [ticking] is set. *)
Definition throttled (c : Chrome) : Prop :=
  frames c = if ticking c then 1%nat else 0%nat.

(** At most one callback is held, and only while [ticking] is set. *)
Definition at_most_one_frame (c : Chrome) : Prop :=
  (frames c <= if ticking c then 1 else 0)%nat.

(** The sections [updateActiveLink] goes over: those with an [id]. *)
Definition sections_with_id (c : Chrome) : list Box :=
  List.filter (fun s => bool_decide (is_Some (getAttribute "id" (box_element s))))
    (page_sections c).

(** ** Further sample inputs *)

Module Fixture.

(** A browser without [IntersectionObserver]. *)
Definition legacy : Platform :=
  {| JSON_parse := Reference.read;
     JSON_stringify := Reference.stringify;
     StringToNumber := Reference.number_of_string;
     getFullYear := Reference.utc_year;
     IntersectionObserver_in_window := false;
     JSON_parse_empty := eq_refl |}.

Definition sample_mode : Config :=
  {| USE_SAMPLE_DATA := true;
     API_URL := "https://example.org/api";
     API_TIMEOUT := 10000;
     CACHE_DURATION := 300000 |}.

(** A storage that holds [j] under the key of the cache. *)
Definition holding (j : json) : Storage :=
  {| accessible := true; quota := 5000000;
     items := {[ "portfolio_data" := Reference.stringify j ]} |}.


Definition projects : list json :=
  [ Sample.project "One" "a, b ,c"; Sample.project "Two" "x" ].

Definition links : list json :=
  [ JObj [ ("platform", JStr "github"); ("url", JStr "https://github.com/jane") ];
    JObj [ ("platform", JStr "email"); ("url", JStr "mailto:jane@example.org") ] ].

Definition link_to (target : string) (classes : list string) : Elem :=
  mkElement "a" classes [("href", target)] None [].

Definition section_at (id : string) (top height : Z) : Box :=
  mkBox (mkElement "section" [] [("id", id)] None []) top height.

(** A page with a navbar of 60 pixels, three sections and their links,
    scrolled to the top, the throttle idle. *)
Definition chrome : Chrome :=
  {| navbar := Some (mkBar 60 EmptyString);
     page_sections := [ section_at "home" 0 700; section_at "projects" 700 900;
                        section_at "contact" 1600 500 ];
     nav_links := [ link_to "#home" ["nav-link"; "active"];
                    link_to "#projects" ["nav-link"];
                    link_to "#contact" ["nav-link"] ];
     nav_toggle := Some (mkElement "button" ["nav-toggle"] [] None []);
     nav_menu := Some (mkElement "ul" ["nav-menu"] [] None []);
     scrollY := 0;
     ticking := false;
     frames := 0 |}.

(** The same page without its navbar. *)
Definition bare : Chrome := set_navbar None chrome.

End Fixture.

(** Case analysis on an innermost scrutinee of the goal. *)
Ltac case_scrutinee :=
  match goal with
  | |- context [match ?x with _ => _ end] =>
      lazymatch x with
      | context [match _ with _ => _ end] => fail
      | _ => destruct x eqn:?
      end
  end.

(** ** Properties of the string operations *)

Section StringFacts.

Import JsString.

Lemma trimStart_first s : first_is_ws (trimStart s) = false.
Proof.
  induction s as [|c r IH]; simpl; [reflexivity|].
  destruct (is_ws c) eqn:E; [exact IH|]. simpl. exact E.
Qed.

Lemma trimEnd_first s : first_is_ws s = false -> first_is_ws (trimEnd s) = false.
Proof.
  destruct s as [|c r]; simpl; [reflexivity|].
  intros E. rewrite E. simpl. exact E.
Qed.

Lemma trimEnd_last s : last_is_ws (trimEnd s) = false.
Proof.
  induction s as [|c r IH]; simpl; [reflexivity|].
  destruct (trimEnd r) as [|c' r'] eqn:E.
  - destruct (is_ws c) eqn:Ec; simpl; [reflexivity | exact Ec].
  - rewrite andb_false_r. exact IH.
Qed.

Lemma trim_trimmed s : is_empty (trim s) = false -> trimmed_nonempty (trim s).
Proof.
  intros E. repeat split.
  - intros Heq. rewrite Heq in E. discriminate.
  - apply trimEnd_first, trimStart_first.
  - apply trimEnd_last.
Qed.

Lemma trimmed_pieces (l : list string) :
  Forall trimmed_nonempty
    (List.filter (fun t => negb (is_empty t)) (trim <$> l)).
Proof.
  induction l as [|s l IH]; simpl; [constructor|].
  destruct (is_empty (trim s)) eqn:E; simpl; [exact IH|].
  constructor; [apply trim_trimmed, E | exact IH].
Qed.

Lemma split_not_nil sep s : split sep s ≠ [].
Proof.
  destruct s as [|c r]; simpl; [discriminate|].
  destruct (Ascii.eqb c sep); [discriminate|].
  destruct (split sep r); discriminate.
Qed.

Lemma split_without sep s : has_char sep s = false -> split sep s = [s].
Proof.
  induction s as [|c r IH]; simpl; [reflexivity|].
  intros E. apply orb_false_elim in E as [Ec Er].
  rewrite Ec, (IH Er). reflexivity.
Qed.

Lemma split_at_first sep first rest :
  has_char sep first = false ->
  split sep (first +:+ String sep rest) = first :: split sep rest.
Proof.
  induction first as [|c r IH]; simpl.
  - intros _. rewrite Ascii.eqb_refl. reflexivity.
  - intros E. apply orb_false_elim in E as [Ec Er].
    rewrite Ec, (IH Er). reflexivity.
Qed.

Lemma join_split sep s : join (String sep EmptyString) (split sep s) = s.
Proof.
  induction s as [|c r IH]; simpl; [reflexivity|].
  destruct (Ascii.eqb c sep) eqn:Ec.
  - apply Ascii.eqb_eq in Ec as ->.
    destruct (split sep r) as [|p ps] eqn:E; [now apply split_not_nil in E|].
    simpl in *. rewrite IH. reflexivity.
  - destruct (split sep r) as [|p ps] eqn:E; [now apply split_not_nil in E|].
    destruct ps as [|q qs]; simpl in *; rewrite <- IH; reflexivity.
Qed.

Lemma replace_unfold pat rep s :
  replace pat rep s =
  if String.prefix pat s then rep +:+ drop (String.length pat) s
  else match s with
       | EmptyString => EmptyString
       | String c r => String c (replace pat rep r)
       end.
Proof. destruct s; reflexivity. Qed.

Lemma occurs_unfold pat s :
  occurs pat s =
  String.prefix pat s ||
  match s with EmptyString => false | String _ r => occurs pat r end.
Proof. destruct s; reflexivity. Qed.

Lemma prefix_append pat rest : String.prefix pat (pat +:+ rest) = true.
Proof.
  induction pat as [|c r IH]; simpl; [now destruct rest|].
  destruct (ascii_dec c c); [exact IH | congruence].
Qed.

Lemma drop_append pat rest : drop (String.length pat) (pat +:+ rest) = rest.
Proof. induction pat as [|c r IH]; simpl; [reflexivity | exact IH]. Qed.

Lemma replace_leading pat rep rest : replace pat rep (pat +:+ rest) = rep +:+ rest.
Proof. rewrite replace_unfold, prefix_append, drop_append. reflexivity. Qed.

Lemma replace_absent pat rep s : occurs pat s = false -> replace pat rep s = s.
Proof.
  induction s as [|c r IH]; intros E; rewrite occurs_unfold in E;
    apply orb_false_elim in E as [Ep Er]; rewrite replace_unfold, Ep.
  - reflexivity.
  - rewrite (IH Er). reflexivity.
Qed.

Lemma replace_first_occurrence pat rep pre post :
  starts_before pat pre (pat +:+ post) = false ->
  replace pat rep (pre +:+ pat +:+ post) = pre +:+ rep +:+ post.
Proof.
  induction pre as [|c r IH]; intros E.
  - exact (replace_leading pat rep post).
  - simpl in E. apply orb_false_elim in E as [Ep Er].
    rewrite replace_unfold. simpl. simpl in Ep. rewrite Ep, (IH Er). reflexivity.
Qed.

End StringFacts.

(** ** Property reads *)

Lemma Get_defined (v x : jsval) (k k' : string) :
  Get v k = Ok x -> exists y, Get v k' = Ok y.
Proof.
  destruct v as [|[]|]; cbn; intros E; try discriminate; eauto.
Qed.

(** ** Tags of a project card *)

(** C2, as amended: tags given as a string are split at the commas, each
    piece trimmed and the empty pieces dropped, so the card is built from
    trimmed, non-empty strings; tags given as an array are used as they
    are.  Both ["a, b ,c"] and [["a","b","c"]] give [["a","b","c"]]. *)
Theorem card_tags_normalized :
  (forall s : string,
     exists ts : list string,
       card_tags (VStr s) = Ok (JStr <$> ts)
       /\ ts = List.filter (fun t => negb (JsString.is_empty t))
                 (JsString.trim <$> JsString.split "," s)
       /\ Forall trimmed_nonempty ts)
  /\ (forall items : list json, card_tags (VJson (JArr items)) = Ok items)
  /\ card_tags VUndefined = Ok []
  /\ card_tags (VStr "a, b ,c") = Ok [JStr "a"; JStr "b"; JStr "c"]
  /\ card_tags (VJson (JArr [JStr "a"; JStr "b"; JStr "c"]))
     = Ok [JStr "a"; JStr "b"; JStr "c"].
Proof.
  split; [|split; [|split; [|split]]]; try reflexivity.
  intros s. eexists. split; [|split; [reflexivity|apply trimmed_pieces]].
  destruct s; reflexivity.
Qed.

(** C2 as stated fails on an array: its strings are neither trimmed nor
    filtered. *)
Lemma card_tags_array_counterexample :
  ~ (forall (tags : list string) (ts : list json),
       card_tags (VJson (JArr (JStr <$> tags))) = Ok ts ->
       Forall (fun t => exists s, t = JStr s /\ trimmed_nonempty s) ts).
Proof.
  intros claim.
  specialize (claim [" a"; ""] _ eq_refl).
  inversion claim as [|t ts [s [Heq [_ [Hfirst _]]]] _]; subst.
  injection Heq as <-. discriminate Hfirst.
Qed.

(** ** Logo label *)

(** [renderProfile] writes the logo label of a name into the two logo
    regions. *)
Lemma renderProfile_logo `{Platform} (w : World) (profile : jsval) (s : string)
    (li ln : Elem) :
  truthy profile = true ->
  Get profile "name" = Ok (VStr s) ->
  s ≠ EmptyString ->
  logo_initial (document w) = Some li ->
  logo_name (document w) = Some ln ->
  snd (renderProfile profile w) = Ok tt
  /\ logo_initial (document (fst (renderProfile profile w)))
     = Some (set_textContent (fst (logo s)) li)
  /\ logo_name (document (fst (renderProfile profile w)))
     = Some (set_textContent (snd (logo s)) ln).
Proof.
  intros Hprofile Hname Hs Hli Hln.
  destruct (Get_defined _ _ _ "tagline" Hname) as [tagline Htagline].
  destruct (Get_defined _ _ _ "description" Hname) as [description Hdescription].
  assert (Htruthy : truthy (VStr s) = true) by (destruct s; [contradiction|reflexivity]).
  unfold renderProfile, mbind, M_bind, modify, lift, fill, present, gets, Date_now, gets.
  rewrite Hprofile, Hname, Htagline, Hdescription, Htruthy.
  destruct w as [[hn ht hd li' ln' ft pg cl] st ck net con tr].
  cbn in Hli, Hln. subst li' ln'.
  destruct (truthy tagline), (truthy description); cbn; repeat split.
Qed.

(** C5, as amended: the name is split at the space character (U+0020)
    only.  With a space in it, the initial is the first character of what
    precedes the first space and the name-part is everything after that
    space; without one, the initial is the first character and the
    name-part the rest of the name.  [renderProfile] writes the two parts
    into the logo regions. *)
Theorem logo_on_space :
  (forall first rest : string,
     has_char " " first = false ->
     logo (first +:+ " " +:+ rest) = (JsString.charAt0 first, rest))
  /\ (forall name : string,
        has_char " " name = false ->
        logo name = (JsString.charAt0 name, JsString.slice1 name))
  /\ logo "Jane Doe" = ("J", "Doe")
  /\ logo "Cher" = ("C", "her")
  /\ (forall (P : Platform) (w : World) (profile : jsval) (name : string)
             (li ln : Elem),
        truthy profile = true ->
        Get profile "name" = Ok (VStr name) ->
        name ≠ EmptyString ->
        logo_initial (document w) = Some li ->
        logo_name (document w) = Some ln ->
        logo_initial (document (fst (renderProfile profile w)))
        = Some (set_textContent (fst (logo name)) li)
        /\ logo_name (document (fst (renderProfile profile w)))
           = Some (set_textContent (snd (logo name)) ln)).
Proof.
  split; [|split; [|split; [|split]]]; try reflexivity.
  - intros first rest Hfirst. unfold logo.
    change (first +:+ " " +:+ rest) with (first +:+ String " " rest).
    rewrite (split_at_first " " first rest Hfirst).
    destruct (JsString.split " " rest) as [|p ps] eqn:E;
      [now apply split_not_nil in E|].
    cbn [length hd tl Nat.ltb Nat.leb]. rewrite <- E.
    rewrite (join_split " " rest). reflexivity.
  - intros name Hname. unfold logo.
    rewrite (split_without " " name Hname). reflexivity.
  - intros P w profile name li ln Hprofile Hname Hne Hli Hln.
    apply (renderProfile_logo w profile name li ln Hprofile Hname Hne Hli Hln).
Qed.

Lemma logo_on_space_witness :
  logo ("Mary" +:+ " " +:+ "Ann Lee") = (JsString.charAt0 "Mary", "Ann Lee")
  /\ logo "Cher" = (JsString.charAt0 "Cher", JsString.slice1 "Cher")
  /\ logo_name (document (fst (renderProfile (H := Reference.platform)
                    (VJson (JObj [("name", JStr "Jane Doe")]))
                    (Sample.world Sample.storage Hangs))))
     = Some (set_textContent "Doe" (Sample.blank "span")).
Proof.
  split; [|split].
  - apply (proj1 logo_on_space "Mary" "Ann Lee"). reflexivity.
  - apply (proj1 (proj2 logo_on_space) "Cher"). reflexivity.
  - refine (proj2 (proj2 (proj2 (proj2 (proj2 logo_on_space)))
              Reference.platform (Sample.world Sample.storage Hangs)
              (VJson (JObj [("name", JStr "Jane Doe")])) "Jane Doe"
              (Sample.blank "span") (Sample.blank "span") _ _ _ _ _));
      [reflexivity | reflexivity | discriminate | reflexivity | reflexivity].
Defined.

(** C5 as stated fails on a name whose white space is not a space: the
    tab of ["Jane<TAB>Doe"] does not split it. *)
Lemma logo_whitespace_counterexample :
  ~ (forall name : string,
       name ≠ EmptyString -> logo name = logo_on_whitespace name).
Proof.
  intros claim.
  specialize (claim ("Jane" +:+ Sample.tab +:+ "Doe")).
  vm_compute in claim.
  assert (E : ("J", String "a" (String "n" (String "e" (String "009" "Doe"))))
              = ("J", "Doe")) by (apply claim; discriminate).
  discriminate E.
Qed.

(** ** Lazy image loader *)

Lemma own_removed (k : string) (l : list (string * string)) :
  own (List.filter (fun kv => negb (String.eqb k (fst kv))) l) k = None.
Proof.
  induction l as [|[k' v] l IH]; simpl; [reflexivity|].
  destruct (String.eqb k k') eqn:E; simpl; [exact IH|].
  rewrite E. exact IH.
Qed.

(** C10: loading an image twice leaves it as loading it once does: the
    first load removes [data-src], and an image without [data-src] is left
    as it is. *)
Theorem loadImage_idempotent :
  (forall img : Elem, loadImage (loadImage img) = loadImage img)
  /\ (forall (img : Elem) (c : ascii) (src : string),
        getAttribute "data-src" img = Some (String c src) ->
        getAttribute "data-src" (loadImage img) = None)
  /\ (forall img : Elem,
        getAttribute "data-src" img = None -> loadImage img = img).
Proof.
  assert (Hgone : forall (img : Elem) c src,
             getAttribute "data-src" img = Some (String c src) ->
             getAttribute "data-src" (loadImage img) = None).
  { intros img c src E. unfold loadImage. rewrite E.
    unfold getAttribute, classList_add, removeAttribute. cbn [attributes].
    apply own_removed. }
  split; [|split]; [|exact Hgone|].
  - intros img.
    destruct (getAttribute "data-src" img) as [[|c src]|] eqn:E.
    + unfold loadImage at 2. rewrite E. reflexivity.
    + unfold loadImage at 1. rewrite (Hgone img c src E). reflexivity.
    + unfold loadImage at 2. rewrite E. reflexivity.
  - intros img E. unfold loadImage. rewrite E. reflexivity.
Qed.

Lemma loadImage_idempotent_witness :
  let img := mkElement "img" [] [("src", "x.svg"); ("data-src", "a.png")] None [] in
  getAttribute "data-src" (loadImage img) = None
  /\ loadImage (loadImage img) = loadImage img.
Proof.
  split.
  - apply (proj1 (proj2 loadImage_idempotent) _ "a"%char ".png"). reflexivity.
  - apply (proj1 loadImage_idempotent).
Defined.

(** ** Display label of a social link *)

(** C7, as amended: for the platform [email] the label is the URL with
    its first occurrence of [mailto:] removed, wherever it stands (a URL
    without [mailto:] is unchanged); for any other platform that is not
    the name of a member of [Object.prototype] it is the entry of the
    table, else the platform, else [Link]. *)
Theorem getDisplayLabel_label :
  (forall (link : jsval) (u : string),
     Get link "platform" = Ok (VStr "email") ->
     Get link "url" = Ok (VStr u) ->
     getDisplayLabel link = Ok (VStr (JsString.replace "mailto:" "" u))
     /\ (forall pre post : string,
           u = pre +:+ "mailto:" +:+ post ->
           starts_before "mailto:" pre ("mailto:" +:+ post) = false ->
           getDisplayLabel link = Ok (VStr (pre +:+ post)))
     /\ (occurs "mailto:" u = false -> getDisplayLabel link = Ok (VStr u)))
  /\ (forall (link : jsval) (p : string),
        Get link "platform" = Ok (VStr p) ->
        p ≠ "email" ->
        inherited p = false ->
        getDisplayLabel link =
          Ok (VStr (match own platformLabels p with
                    | Some label => label
                    | None => if JsString.is_empty p then "Link" else p
                    end)))
  /\ (forall link : jsval,
        Get link "platform" = Ok VUndefined ->
        getDisplayLabel link = Ok (VStr "Link")).
Proof.
  split; [|split].
  - intros link u Hp Hu.
    assert (E : getDisplayLabel link = Ok (VStr (JsString.replace "mailto:" "" u))).
    { unfold getDisplayLabel. rewrite Hp. cbn. rewrite Hu. reflexivity. }
    split; [exact E|split].
    + intros pre post -> Hfirst. rewrite E.
      rewrite (replace_first_occurrence "mailto:" "" pre post Hfirst).
      reflexivity.
    + intros Habsent. rewrite E, (replace_absent _ _ _ Habsent). reflexivity.
  - intros link p Hp Hne Hinh.
    unfold getDisplayLabel. rewrite Hp. cbn [mbind result_bind].
    assert (Ee : is_email (VStr p) = false).
    { unfold is_email, VStr. apply String.eqb_neq. exact Hne. }
    rewrite Ee. unfold table_lookup, VStr. cbn [ToString ToString_json].
    destruct (own platformLabels p) as [label|]; [reflexivity|].
    rewrite Hinh. unfold or_else. cbn [truthy].
    destruct p; reflexivity.
  - intros link Hp. unfold getDisplayLabel. rewrite Hp. reflexivity.
Qed.

Lemma getDisplayLabel_label_witness :
  getDisplayLabel (VJson (JObj [("platform", JStr "email");
                                ("url", JStr "mailto:jane@example.org")]))
    = Ok (VStr "jane@example.org")
  /\ getDisplayLabel (VJson (JObj [("platform", JStr "gitlab")]))
     = Ok (VStr "gitlab").
Proof.
  split.
  - refine (proj1 (proj2 (proj1 getDisplayLabel_label _ _ _ _)) "" "jane@example.org" _ _);
      reflexivity.
  - refine (proj1 (proj2 getDisplayLabel_label) _ "gitlab" _ _ _);
      [reflexivity | discriminate | reflexivity].
Defined.

(** A platform named like a member of [Object.prototype] finds that
    member in the table. *)
Example getDisplayLabel_inherited :
  getDisplayLabel (VJson (JObj [("platform", JStr "constructor"); ("url", JStr "https://example.org")]))
  = Ok (VNative "constructor").
Proof. reflexivity. Qed.

(** C7 as stated fails on an [email] link whose URL has [mailto:] after
    its start: the occurrence is removed although it is no prefix. *)
Lemma getDisplayLabel_prefix_counterexample :
  ~ (forall (link : jsval) (p u : string),
       Get link "platform" = Ok (VStr p) ->
       Get link "url" = Ok (VStr u) ->
       getDisplayLabel link = Ok (VStr (label_by_prefix p u))).
Proof.
  intros claim.
  specialize (claim (VJson (JObj [("platform", JStr "email"); ("url", JStr "x-mailto:y")]))
                    "email" "x-mailto:y" eq_refl eq_refl).
  vm_compute in claim. discriminate claim.
Qed.

(** ** Cache store *)

Section CacheFacts.

Context `{Platform}.
Variable CONFIG : Config.

Lemma world_eta (w : World) : with_storage (sessionStorage w) w = w.
Proof. destruct w; reflexivity. Qed.

Lemma Get_envelope_data (d : json) (t : Z) :
  Get (VJson (envelope (VJson d) t)) "data" = Ok (VJson d).
Proof. reflexivity. Qed.

Lemma Get_envelope_timestamp (d : json) (t : Z) :
  Get (VJson (envelope (VJson d) t)) "timestamp" = Ok (VJson (JNum t)).
Proof. reflexivity. Qed.

Lemma setItem_getItem (k v : string) (st st' : Storage) :
  setItem k v st = Ok st' -> getItem k st' = Ok (Some v).
Proof.
  unfold setItem, getItem. intros E.
  destruct (accessible st) eqn:Ea; [|discriminate].
  destruct (used _ <=? quota st)%N; [|discriminate].
  injection E as <-. cbn [accessible items].
  now rewrite lookup_insert_eq.
Qed.

Lemma removeItem_gone (k : string) (st st' : Storage) :
  removeItem k st = Ok st' -> items st' !! k = None.
Proof.
  unfold removeItem. intros E.
  destruct (accessible st); [|discriminate].
  injection E as <-. cbn [items]. apply lookup_delete_eq.
Qed.

Lemma getItem_removeItem (k : string) (st : Storage) (o : option string) :
  getItem k st = Ok o -> exists st', removeItem k st = Ok st'.
Proof.
  unfold getItem, removeItem. destruct (accessible st); [eauto|discriminate].
Qed.

Lemma getCachedData_valid (w : World) (text : string) (d : json) (t : Z) :
  getItem "portfolio_data" (sessionStorage w) = Ok (Some text) ->
  JSON_parse text = Some (envelope (VJson d) t) ->
  clock w - t < CACHE_DURATION CONFIG ->
  getCachedData CONFIG w = (w, Ok (VJson d)).
Proof.
  intros Hget Hparse Hfresh.
  unfold getCachedData, try_catch, storage_getItem.
  unfold mbind, M_bind. rewrite Hget.
  destruct text as [|c r].
  { rewrite JSON_parse_empty in Hparse. discriminate. }
  unfold lift, parse. rewrite Hparse.
  rewrite Get_envelope_data, Get_envelope_timestamp.
  unfold Date_now, gets, still_valid. cbn [ToNumber].
  apply Z.ltb_lt in Hfresh. rewrite Hfresh. reflexivity.
Qed.

Lemma getCachedData_expired (w : World) (text : string) (d : json) (t : Z) (st' : Storage) :
  getItem "portfolio_data" (sessionStorage w) = Ok (Some text) ->
  JSON_parse text = Some (envelope (VJson d) t) ->
  CACHE_DURATION CONFIG <= clock w - t ->
  removeItem "portfolio_data" (sessionStorage w) = Ok st' ->
  getCachedData CONFIG w = (with_storage st' w, Ok VNull).
Proof.
  intros Hget Hparse Hold Hrem.
  unfold getCachedData, try_catch, storage_getItem.
  unfold mbind, M_bind. rewrite Hget.
  destruct text as [|c r].
  { rewrite JSON_parse_empty in Hparse. discriminate. }
  unfold lift, parse. rewrite Hparse.
  rewrite Get_envelope_data, Get_envelope_timestamp.
  unfold Date_now, gets, still_valid. cbn [ToNumber].
  apply Z.ltb_ge in Hold. rewrite Hold.
  unfold storage_removeItem. rewrite Hrem. reflexivity.
Qed.

Lemma getCachedData_absent (w : World) :
  getItem "portfolio_data" (sessionStorage w) = Ok None ->
  getCachedData CONFIG w = (w, Ok VNull).
Proof.
  intros Hget.
  unfold getCachedData, try_catch, storage_getItem.
  unfold mbind, M_bind. rewrite Hget. reflexivity.
Qed.

Lemma getCachedData_unparsable (w : World) (text : string) :
  getItem "portfolio_data" (sessionStorage w) = Ok (Some text) ->
  JSON_parse text = None ->
  getCachedData CONFIG w = (w, Ok VNull).
Proof.
  intros Hget Hparse.
  unfold getCachedData, try_catch, storage_getItem.
  unfold mbind, M_bind. rewrite Hget.
  destruct text as [|c r]; [reflexivity|].
  unfold lift, parse. rewrite Hparse. reflexivity.
Qed.

(** C3: reading the cache.  An envelope as old as [CACHE_DURATION] or
    older is deleted from the storage and the read gives nothing; an
    absent or unparsable entry gives nothing and leaves the storage as it
    is; a younger envelope gives its data. *)
Theorem getCachedData_read :
  (forall (w : World) (text : string) (d : json) (t : Z),
     getItem "portfolio_data" (sessionStorage w) = Ok (Some text) ->
     JSON_parse text = Some (envelope (VJson d) t) ->
     CACHE_DURATION CONFIG <= clock w - t ->
     exists st' : Storage,
       getCachedData CONFIG w = (with_storage st' w, Ok VNull)
       /\ removeItem "portfolio_data" (sessionStorage w) = Ok st'
       /\ items st' !! "portfolio_data" = None)
  /\ (forall w : World,
        getItem "portfolio_data" (sessionStorage w) = Ok None ->
        getCachedData CONFIG w = (w, Ok VNull))
  /\ (forall (w : World) (text : string),
        getItem "portfolio_data" (sessionStorage w) = Ok (Some text) ->
        JSON_parse text = None ->
        getCachedData CONFIG w = (w, Ok VNull))
  /\ (forall (w : World) (text : string) (d : json) (t : Z),
        getItem "portfolio_data" (sessionStorage w) = Ok (Some text) ->
        JSON_parse text = Some (envelope (VJson d) t) ->
        clock w - t < CACHE_DURATION CONFIG ->
        getCachedData CONFIG w = (w, Ok (VJson d))).
Proof.
  split; [|split; [|split]].
  - intros w text d t Hget Hparse Hold.
    destruct (getItem_removeItem _ _ _ Hget) as [st' Hrem].
    exists st'. split; [|split].
    + now apply (getCachedData_expired w text d t).
    + exact Hrem.
    + now apply (removeItem_gone _ _ _ Hrem).
  - apply getCachedData_absent.
  - apply getCachedData_unparsable.
  - apply getCachedData_valid.
Qed.

(** C9, as amended: when the storage accepts the write, a read less than
    [CACHE_DURATION] after it gives the data written. *)
Theorem cache_roundtrip (w : World) (d : json) (dt : Z) (st' : Storage) :
  JSON_parse (JSON_stringify (envelope (VJson d) (clock w)))
    = Some (envelope (VJson d) (clock w)) ->
  setItem "portfolio_data" (JSON_stringify (envelope (VJson d) (clock w)))
    (sessionStorage w) = Ok st' ->
  dt < CACHE_DURATION CONFIG ->
  setCachedData (VJson d) w = (with_storage st' w, Ok tt)
  /\ getCachedData CONFIG (advance dt (with_storage st' w))
     = (advance dt (with_storage st' w), Ok (VJson d)).
Proof.
  intros Hcodec Hset Hdt. split.
  - unfold setCachedData, try_catch, mbind, M_bind, Date_now, gets, storage_setItem.
    rewrite Hset. reflexivity.
  - apply (getCachedData_valid _ (JSON_stringify (envelope (VJson d) (clock w))) d (clock w)).
    + cbn [advance with_storage sessionStorage]. now apply (setItem_getItem _ _ (sessionStorage w)).
    + exact Hcodec.
    + cbn [advance with_storage clock]. lia.
Qed.

End CacheFacts.

Lemma getCachedData_read_witness :
  let stored (t : Z) : Storage :=
    {| accessible := true; quota := 100;
       items := {[ "portfolio_data" :=
                     Reference.stringify (envelope (VJson (JStr "x")) t) ]} |} in
  let fresh := Sample.world (stored 1699999999000) Hangs in
  let stale := Sample.world (stored 1690000000000) Hangs in
  getCachedData (H := Reference.platform) Sample.config fresh
  = (fresh, Ok (VJson (JStr "x")))
  /\ exists st' : Storage,
       getCachedData (H := Reference.platform) Sample.config stale
       = (with_storage st' stale, Ok VNull)
       /\ items st' !! "portfolio_data" = None.
Proof.
  intros stored fresh stale. split.
  - apply (proj2 (proj2 (proj2 (getCachedData_read (H := Reference.platform) Sample.config)))
             fresh (Reference.stringify (envelope (VJson (JStr "x")) 1699999999000))
             (JStr "x") 1699999999000).
    + vm_compute. reflexivity.
    + vm_compute. reflexivity.
    + vm_compute. reflexivity.
  - destruct (proj1 (getCachedData_read (H := Reference.platform) Sample.config)
                stale (Reference.stringify (envelope (VJson (JStr "x")) 1690000000000))
                (JStr "x") 1690000000000)
      as (st' & Hread & _ & Hgone).
    + vm_compute. reflexivity.
    + vm_compute. reflexivity.
    + vm_compute. discriminate.
    + exists st'. split; assumption.
Defined.

Lemma cache_roundtrip_witness :
  let w := Sample.world Sample.storage Hangs in
  exists st' : Storage,
    getCachedData (H := Reference.platform) Sample.config (advance 1000 (with_storage st' w))
    = (advance 1000 (with_storage st' w), Ok (VJson Sample.data)).
Proof.
  intros w. eexists.
  refine (proj2 (cache_roundtrip (H := Reference.platform) Sample.config w Sample.data 1000 _ _ _ _)).
  - vm_compute. reflexivity.
  - vm_compute. reflexivity.
  - vm_compute. reflexivity.
Defined.

(** C9 as stated fails when the storage refuses the write: the failure is
    swallowed, nothing is stored, and the read gives nothing. *)
Lemma cache_roundtrip_counterexample :
  ~ (forall (P : Platform) (CONFIG : Config) (w : World) (d : json) (dt : Z),
       JSON_parse (JSON_stringify (envelope (VJson d) (clock w)))
         = Some (envelope (VJson d) (clock w)) ->
       dt < CACHE_DURATION CONFIG ->
       snd (getCachedData CONFIG (advance dt (fst (setCachedData (VJson d) w))))
         = Ok (VJson d)).
Proof.
  intros claim.
  specialize (claim Reference.platform Sample.config
                    (Sample.world Sample.full_storage Hangs) Sample.data 0).
  assert (E : @Ok jsval VNull = Ok (VJson Sample.data)).
  { rewrite <- claim; [vm_compute; reflexivity | vm_compute; reflexivity | reflexivity]. }
  discriminate E.
Qed.

(** ** Fetcher *)

Section FetcherFacts.

Context `{Platform}.

Lemma fetch_aborted (w : World) (url : string) (timeout : Z) :
  timer_fires_first timeout (network w url) ->
  fetch url timeout w = (advance (Z.max 0 timeout) w, Throw AbortError).
Proof.
  unfold fetch, timer_fires_first.
  destruct (network w url) as [latency body|latency reason|]; intros Hlate;
    try (apply Z.leb_gt in Hlate; rewrite Hlate); reflexivity.
Qed.

Lemma fetchWithTimeout_rethrows (w w' : World) (url : string) (timeout : Z) (e : JsError) :
  fetch url timeout w = (w', Throw e) ->
  name e ≠ "AbortError" ->
  fetchWithTimeout url timeout w = (w', Throw e).
Proof.
  intros Hfetch Hname.
  unfold fetchWithTimeout, try_catch, mbind, M_bind. rewrite Hfetch.
  apply String.eqb_neq in Hname. rewrite Hname. reflexivity.
Qed.

Lemma fetchWithTimeout_timeout (w : World) (url : string) (timeout : Z) :
  timer_fires_first timeout (network w url) ->
  fetchWithTimeout url timeout w
  = (advance (Z.max 0 timeout) w, Throw (Error "Request timeout")).
Proof.
  intros Hlate.
  unfold fetchWithTimeout, try_catch, mbind, M_bind.
  rewrite (fetch_aborted w url timeout Hlate). reflexivity.
Qed.

Lemma fetchWithTimeout_answer (w : World) (url : string) (timeout latency : Z)
    (body : string) (response : json) :
  network w url = Responds latency body ->
  latency <= Z.max 0 timeout ->
  JSON_parse body = Some response ->
  fetchWithTimeout url timeout w = (advance latency w, Ok response).
Proof.
  intros Hnet Hintime Hparse.
  unfold fetchWithTimeout, try_catch, mbind, M_bind, fetch. rewrite Hnet.
  apply Z.leb_le in Hintime. rewrite Hintime.
  unfold lift, parse. rewrite Hparse. reflexivity.
Qed.

Lemma fetchWithTimeout_transport (w : World) (url : string) (timeout latency : Z)
    (reason : string) :
  network w url = Fails latency reason ->
  latency <= Z.max 0 timeout ->
  fetch url timeout w = (advance latency w, Throw (TypeError reason))
  /\ fetchWithTimeout url timeout w = (advance latency w, Throw (TypeError reason)).
Proof.
  intros Hnet Hintime.
  assert (Hfetch : fetch url timeout w = (advance latency w, Throw (TypeError reason))).
  { unfold fetch. rewrite Hnet. apply Z.leb_le in Hintime. now rewrite Hintime. }
  split; [exact Hfetch|].
  apply fetchWithTimeout_rethrows; [exact Hfetch | discriminate].
Qed.

Lemma fetch_rejection_name (w w' : World) (url : string) (timeout : Z) (e : JsError) :
  fetch url timeout w = (w', Throw e) ->
  ~ timer_fires_first timeout (network w url) ->
  name e ≠ "AbortError".
Proof.
  unfold fetch, timer_fires_first.
  destruct (network w url) as [latency body|latency reason|]; intros Hfetch Hintime.
  - destruct (latency <=? Z.max 0 timeout) eqn:E; [discriminate|].
    apply Z.leb_gt in E. contradiction.
  - destruct (latency <=? Z.max 0 timeout) eqn:E.
    + injection Hfetch as _ <-. discriminate.
    + apply Z.leb_gt in E. contradiction.
  - contradiction.
Qed.

(** C4: when the abort timer fires first the fetch fails with the error
    [new Error("Request timeout")], which is neither the abort error nor
    a transport error; any other error of the underlying call, a
    transport failure among them, is thrown on as it is. *)
Theorem fetchWithTimeout_errors :
  (forall (w : World) (url : string) (timeout : Z),
     timer_fires_first timeout (network w url) ->
     fetchWithTimeout url timeout w
     = (advance (Z.max 0 timeout) w, Throw (Error "Request timeout")))
  /\ (forall (w w' : World) (url : string) (timeout : Z) (e : JsError),
        fetch url timeout w = (w', Throw e) ->
        ~ timer_fires_first timeout (network w url) ->
        fetchWithTimeout url timeout w = (w', Throw e))
  /\ (forall (w : World) (url : string) (timeout latency : Z) (reason : string),
        network w url = Fails latency reason ->
        latency <= Z.max 0 timeout ->
        fetch url timeout w = (advance latency w, Throw (TypeError reason))
        /\ fetchWithTimeout url timeout w
           = (advance latency w, Throw (TypeError reason)))
  /\ (forall reason : string, Error "Request timeout" ≠ TypeError reason)
  /\ message (Error "Request timeout") = "Request timeout"
  /\ Error "Request timeout" ≠ AbortError.
Proof.
  split; [|split; [|split; [|split; [|split]]]].
  - apply fetchWithTimeout_timeout.
  - intros w w' url timeout e Hfetch Hintime.
    apply fetchWithTimeout_rethrows; [exact Hfetch|].
    apply (fetch_rejection_name w w' url timeout e Hfetch Hintime).
  - apply fetchWithTimeout_transport.
  - discriminate.
  - reflexivity.
  - discriminate.
Qed.

End FetcherFacts.

Lemma fetchWithTimeout_errors_witness :
  fetchWithTimeout (H := Reference.platform) "https://example.org/api?action=all" 10000
    (Sample.world Sample.storage (Responds 10001 "{}"))
  = (advance 10000 (Sample.world Sample.storage (Responds 10001 "{}")),
     Throw (Error "Request timeout"))
  /\ fetchWithTimeout (H := Reference.platform) "https://example.org/api?action=all" 10000
       (Sample.world Sample.storage (Fails 40 "Failed to fetch"))
     = (advance 40 (Sample.world Sample.storage (Fails 40 "Failed to fetch")),
        Throw (TypeError "Failed to fetch")).
Proof.
  split.
  - apply (proj1 (fetchWithTimeout_errors (H := Reference.platform))).
    vm_compute. reflexivity.
  - apply (proj1 (proj2 (proj2 (fetchWithTimeout_errors (H := Reference.platform))))).
    + reflexivity.
    + vm_compute. discriminate.
Defined.

(** ** Data loader *)

Section LoaderFacts.

Context `{Platform}.
Variable CONFIG : Config.
Variable SAMPLE_DATA : jsval.


(** After a cache miss the data is what the fetch and the envelope
    give. *)
Lemma resolveData_miss (w w0 : World) :
  misses_cache CONFIG w w0 ->
  resolveData CONFIG SAMPLE_DATA w =
    (response ← fetchWithTimeout (api_url CONFIG) (API_TIMEOUT CONFIG);
     success ← lift (Get (VJson response) "success");
     if truthy success then
       data ← lift (Get (VJson response) "data");
       setCachedData data;;
       mret data
     else
       error ← lift (Get (VJson response) "error");
       throw (Error (ToString (or_else error (VStr "Gagal memuat data"))))) w0.
Proof.
  intros [Hmode [miss [Hread Hmiss]]].
  unfold resolveData. rewrite Hmode.
  unfold mbind at 1, M_bind at 1. rewrite Hread, Hmiss. reflexivity.
Qed.


Lemma resolveData_accepted (w w0 : World) (latency : Z) (response : json)
    (success data : jsval) :
  misses_cache CONFIG w w0 ->
  api_answers CONFIG w0 latency response ->
  Get (VJson response) "success" = Ok success ->
  truthy success = true ->
  Get (VJson response) "data" = Ok data ->
  resolveData CONFIG SAMPLE_DATA w
  = (fst (setCachedData data (advance latency w0)), Ok data).
Proof.
  intros Hmiss [body [Hnet [Hintime Hparse]]] Hsuccess Htrue Hdata.
  rewrite (resolveData_miss w w0 Hmiss).
  unfold mbind, M_bind.
  rewrite (fetchWithTimeout_answer w0 _ _ latency body response Hnet Hintime Hparse).
  unfold lift. rewrite Hsuccess, Htrue, Hdata.
  unfold setCachedData, try_catch, mbind, M_bind, Date_now, gets, storage_setItem.
  destruct (setItem _ _ _); reflexivity.
Qed.





(** In sample mode the data is the bundled sample after the fixed
    delay: neither the storage nor the network is consulted. *)
Lemma resolveData_sample (w : World) :
  USE_SAMPLE_DATA CONFIG = true ->
  resolveData CONFIG SAMPLE_DATA w = (advance 300 w, Ok SAMPLE_DATA).
Proof.
  intros Hmode. unfold resolveData. rewrite Hmode. reflexivity.
Qed.



End LoaderFacts.

Lemma sample_miss (net : NetBehaviour) :
  misses_cache (H := Reference.platform) Sample.config
    (Sample.world Sample.storage net) (Sample.world Sample.storage net).
Proof.
  split; [reflexivity|]. exists VNull. split; reflexivity.
Qed.


Lemma sample_answers (latency : Z) (response : json) :
  latency <= 10000 ->
  Reference.read (Reference.stringify response) = Some response ->
  api_answers (H := Reference.platform) Sample.config
    (Sample.world Sample.storage (Responds latency (Reference.stringify response)))
    latency response.
Proof.
  intros Hintime Hcodec. eexists. split; [reflexivity|]. split; assumption.
Qed.



(** ** Project grid *)

Lemma update_update (r : region) (f g : Elem -> Elem) (d : Dom) :
  update r f (update r g d) = update r (fun e => f (g e)) d.
Proof.
  destruct r, d as [a b c i j k l m]; cbn;
    repeat match goal with o : option Elem |- _ => destruct o end; reflexivity.
Qed.

Lemma with_document_twice (f g : Dom -> Dom) (w : World) :
  with_document f (with_document g w) = with_document (fun d => f (g d)) w.
Proof. reflexivity. Qed.

Lemma createProjectCard_project (p : json) (index : nat) :
  is_project p = true ->
  exists e : Elem,
    createProjectCard (VJson p) index = Ok (El e)
    /\ transitionDelay e = Some (stagger index)
    /\ tagName e = "article".
Proof.
  destruct p as [| | | | |fields]; try discriminate.
  unfold is_project, createProjectCard. cbn [Get mbind result_bind].
  destruct (own fields "tags") as [[| | |s|items|]|] eqn:E;
    try discriminate; intros _; cbn [inherited existsb String.eqb Ascii.eqb Bool.eqb orb].
  - unfold card_tags, or_else. cbn [truthy]. destruct (JsString.is_empty s);
      cbn; eexists; repeat split.
  - cbn. eexists; repeat split.
  - cbn. eexists; repeat split.
Qed.


Lemma append_to_grid (card : Node) (kids : list Node) (w : World) :
  with_document (update ProjectsGrid (appendChild card))
    (with_document (update ProjectsGrid (set_childNodes kids)) w)
  = with_document (update ProjectsGrid (set_childNodes (kids ++ [card]))) w.
Proof.
  rewrite with_document_twice. unfold with_document.
  rewrite update_update. reflexivity.
Qed.

(** The loop of [renderProjects] over well-formed projects appends their
    cards, in order, to what the grid holds. *)
Lemma forEach_cards (ps : list json) :
  Forall (fun p => is_project p = true) ps ->
  forall index : nat,
  exists cards : list Node,
    length cards = length ps
    /\ (forall (i : nat) (p : json),
          ps !! i = Some p ->
          exists e : Elem,
            cards !! i = Some (El e)
            /\ createProjectCard (VJson p) (index + i) = Ok (El e)
            /\ transitionDelay e = Some (stagger (index + i)))
    /\ (forall (kids : list Node) (w : World),
          forEach_from index
            (fun (x : json) (index : nat) =>
               card ← lift (createProjectCard (VJson x) index);
               modify (with_document (update ProjectsGrid (appendChild card))))
            ps
            (with_document (update ProjectsGrid (set_childNodes kids)) w)
          = (with_document (update ProjectsGrid (set_childNodes (kids ++ cards))) w,
             Ok tt)).
Proof.
  induction 1 as [|p ps Hp _ IH]; intros index.
  - exists []. split; [reflexivity|]. split; [intros i p Hi; discriminate Hi|].
    intros kids w. rewrite app_nil_r. reflexivity.
  - destruct (createProjectCard_project p index Hp) as [e [Hcard [Hdelay _]]].
    destruct (IH (S index)) as [cards [Hlen [Hcards Hrun]]].
    exists (El e :: cards). split; [cbn; now rewrite Hlen|]. split.
    + intros [|i] q Hq.
      * injection Hq as <-. exists e. rewrite Nat.add_0_r. now repeat split.
      * destruct (Hcards i q Hq) as [e' He']. exists e'.
        now rewrite Nat.add_succ_r.
    + intros kids w. cbn [forEach_from].
      unfold mbind at 1, M_bind at 1. unfold mbind at 1, M_bind at 1.
      unfold lift. rewrite Hcard. unfold modify at 1.
      rewrite append_to_grid, Hrun, <- app_assoc. reflexivity.
Qed.



Lemma resolveData_sample_witness :
  resolveData (H := Reference.platform)
    {| USE_SAMPLE_DATA := true; API_URL := "https://example.org/api";
       API_TIMEOUT := 10000; CACHE_DURATION := 300000 |}
    (VJson Sample.data) (Sample.world Sample.full_storage Hangs)
  = (advance 300 (Sample.world Sample.full_storage Hangs), Ok (VJson Sample.data)).
Proof.
  apply (resolveData_sample (H := Reference.platform)). reflexivity.
Defined.

(** ** A complete load *)

(** The API answers with three projects and two links: the grid holds
    three cards with the delays 0, 0.1 and 0.2 seconds, the footer shows
    the year and the name, the data is cached, and the five calls of the
    render phase are made in order. *)
Example load_sample :
  let w := Sample.world Sample.storage
             (Responds 120 (Reference.stringify Sample.acceptance)) in
  let final := fst (loadPortfolioData (H := Reference.platform) Sample.config VUndefined w) in
  snd (loadPortfolioData (H := Reference.platform) Sample.config VUndefined w) = Ok tt
  /\ ((fun n => match n with El e => transitionDelay e | _ => None end)
        <$> default [] (childNodes <$> projects_grid (document final)))
     = [Some (stagger 0); Some (stagger 1); Some (stagger 2)]
  /\ (childNodes <$> footer_text (document final))
     = Some [Text (String "169"%char " 2023 Jane Doe. Hak Cipta Dilindungi.")]
  /\ snd (getCachedData (H := Reference.platform) Sample.config final)
     = Ok (VJson Sample.data)
  /\ length (trace final) = 5%nat
  /\ console final = [].
Proof. vm_compute. repeat split. Qed.

(** ** What a statement leaves alone *)

#[export] Instance same_outside_document_preorder : PreOrder same_outside_document.
Proof.
  split.
  - intros w. repeat split.
  - intros w1 w2 w3 (? & ? & ? & ?) (? & ? & ? & ?). repeat split; congruence.
Qed.

#[export] Instance same_page_preorder : PreOrder same_page.
Proof.
  split.
  - intros w. repeat split.
  - intros w1 w2 w3 (? & ? & ?) (? & ? & ?). repeat split; congruence.
Qed.

#[export] Instance same_lists_preorder : PreOrder same_lists.
Proof.
  split.
  - intros w. repeat split.
  - intros w1 w2 w3 (? & ?) (? & ?). repeat split; congruence.
Qed.

Section Keeps.

Context (R : World -> World -> Prop) `{!PreOrder R}.

Lemma keeps_ret {A : Type} (a : A) : keeps R (mret a).
Proof. intros w. reflexivity. Qed.

Lemma keeps_lift {A : Type} (r : result A) : keeps R (lift r).
Proof. intros w. reflexivity. Qed.

Lemma keeps_throw {A : Type} (e : JsError) : keeps R (throw (A := A) e).
Proof. intros w. reflexivity. Qed.

Lemma keeps_gets {A : Type} (f : World -> A) : keeps R (gets f).
Proof. intros w. reflexivity. Qed.

Lemma keeps_modify (f : World -> World) :
  (forall w : World, R w (f w)) -> keeps R (modify f).
Proof. intros Hf w. apply Hf. Qed.

Lemma keeps_bind {A B : Type} (m : M World A) (k : A -> M World B) :
  keeps R m -> (forall a : A, keeps R (k a)) -> keeps R (mbind k m).
Proof.
  intros Hm Hk w. unfold mbind, M_bind.
  specialize (Hm w). destruct (m w) as [w' [a|e]]; cbn in *; [|exact Hm].
  transitivity w'; [exact Hm | apply Hk].
Qed.

Lemma keeps_try {A : Type} (m : M World A) (handler : JsError -> M World A) :
  keeps R m -> (forall e : JsError, keeps R (handler e)) -> keeps R (try_catch m handler).
Proof.
  intros Hm Hh w. unfold try_catch.
  specialize (Hm w). destruct (m w) as [w' [a|e]]; cbn in *; [exact Hm|].
  transitivity w'; [exact Hm | apply Hh].
Qed.

Lemma keeps_forEach {A : Type} (body : A -> nat -> M World unit) (xs : list A) :
  (forall (x : A) (i : nat), keeps R (body x i)) ->
  forall index : nat, keeps R (forEach_from index body xs).
Proof.
  intros Hbody. induction xs as [|x xs IH]; intros index; cbn [forEach_from].
  - apply keeps_ret.
  - apply keeps_bind; [apply Hbody | intros _; apply IH].
Qed.

End Keeps.

(** The steps of a statement, one by one; a mutation is left to the
    relation at hand. *)
Ltac keeps_step :=
  lazymatch goal with
  | |- keeps ?R (mret _) => apply (keeps_ret R)
  | |- keeps ?R (lift _) => apply (keeps_lift R)
  | |- keeps ?R (throw _) => apply (keeps_throw R)
  | |- keeps ?R (gets _) => apply (keeps_gets R)
  | |- keeps ?R (modify _) => apply (keeps_modify R); intros; repeat split
  | |- keeps ?R (mbind _ _) => apply (keeps_bind R); [|intros]
  | |- keeps ?R (try_catch _ _) => apply (keeps_try R); [|intros]
  | |- keeps ?R (forEach_from _ _ _) => apply (keeps_forEach R); intros
  | |- keeps _ (if ?b then _ else _) => destruct b
  | |- keeps _ (match ?x with _ => _ end) => destruct x
  end.

Ltac keeps := repeat keeps_step.

Lemma renderProfile_renders_only `{Platform} (profile : jsval) :
  keeps same_outside_document (renderProfile profile).
Proof. unfold renderProfile, fill, present, Date_now. keeps. Qed.

Lemma renderProjects_renders_only (projects : jsval) :
  keeps same_outside_document (renderProjects projects).
Proof. unfold renderProjects, present, array_forEach, forEach. keeps. Qed.

Lemma renderSocialLinks_renders_only (social : jsval) :
  keeps same_outside_document (renderSocialLinks social).
Proof. unfold renderSocialLinks, present, array_forEach, forEach. keeps. Qed.

Lemma showErrorState_renders_only : keeps same_outside_document showErrorState.
Proof. unfold showErrorState. keeps. Qed.

Lemma renderData_renders_only `{Platform} (data : jsval) :
  keeps same_outside_document (renderData data).
Proof.
  unfold renderData.
  keeps_step; [keeps_step | keeps_step; [apply renderProfile_renders_only|]].
  keeps_step; [keeps_step | keeps_step; [apply renderProjects_renders_only|]].
  keeps_step; [keeps_step | keeps_step; [apply renderSocialLinks_renders_only|]].
  keeps_step.
  - unfold initScrollAnimations. keeps.
  - unfold initLazyLoading. keeps.
Qed.

(** ** More on the cache store *)

Section CacheSafety.

Context `{Platform}.
Variable CONFIG : Config.

Lemma same_but_refl (k : string) (st : Storage) : same_but k st st.
Proof. repeat split. Qed.

Lemma removeItem_same_but (k : string) (st st' : Storage) :
  removeItem k st = Ok st' -> same_but k st st'.
Proof.
  unfold removeItem. destruct (accessible st) eqn:E; [|discriminate].
  intros [= <-]. repeat split; cbn; [now rewrite E|].
  intros k' Hk'. now apply lookup_delete_ne.
Qed.

Lemma setItem_same_but (k v : string) (st st' : Storage) :
  setItem k v st = Ok st' -> same_but k st st'.
Proof.
  unfold setItem. destruct (accessible st) eqn:E; [|discriminate].
  destruct (used _ <=? quota st)%N; [|discriminate].
  intros [= <-]. repeat split; cbn; [now rewrite E|].
  intros k' Hk'. now apply lookup_insert_ne.
Qed.

(** X2: a cache read never throws, whatever the storage holds or does;
    it leaves everything but the storage as it was, and in the storage it
    can only remove the entry [portfolio_data]. *)
Theorem getCachedData_safe (w : World) :
  exists (st : Storage) (v : jsval),
    getCachedData CONFIG w = (with_storage st w, Ok v)
    /\ (st = sessionStorage w
        \/ removeItem "portfolio_data" (sessionStorage w) = Ok st)
    /\ same_but "portfolio_data" (sessionStorage w) st.
Proof.
  assert (Hcases : exists (st : Storage) (v : jsval),
             getCachedData CONFIG w = (with_storage st w, Ok v)
             /\ (st = sessionStorage w
                 \/ removeItem "portfolio_data" (sessionStorage w) = Ok st)).
  { unfold getCachedData, try_catch, storage_getItem, storage_removeItem,
      mbind, M_bind, lift, Date_now, gets, mret, M_ret.
    repeat case_scrutinee.
    all: first
      [ now (exists (sessionStorage w); eexists; split; [rewrite world_eta|left])
      | now (eexists; eexists; split; [reflexivity|right; reflexivity]) ]. }
  destruct Hcases as (st & v & Hread & Hst).
  exists st, v. split; [exact Hread|]. split; [exact Hst|].
  destruct Hst as [->|Hrem]; [apply same_but_refl|].
  apply (removeItem_same_but _ _ _ Hrem).
Qed.

(** X3: a cache write never throws; it leaves everything but the storage
    as it was, every other entry of the storage keeps its value, and when
    the storage refuses the write it stays as it was. *)
Theorem setCachedData_safe (data : jsval) (w : World) :
  exists st : Storage,
    setCachedData data w = (with_storage st w, Ok tt)
    /\ same_but "portfolio_data" (sessionStorage w) st
    /\ (forall e : JsError,
          setItem "portfolio_data" (JSON_stringify (envelope data (clock w)))
            (sessionStorage w) = Throw e ->
          st = sessionStorage w)
    /\ (forall st' : Storage,
          setItem "portfolio_data" (JSON_stringify (envelope data (clock w)))
            (sessionStorage w) = Ok st' ->
          st = st').
Proof.
  unfold setCachedData, try_catch, mbind, M_bind, Date_now, gets, storage_setItem.
  destruct (setItem _ _ _) as [st'|e] eqn:Hset.
  - exists st'. split; [reflexivity|]. split; [apply (setItem_same_but _ _ _ _ Hset)|].
    split; [discriminate | now intros ? [= <-]].
  - exists (sessionStorage w). split; [now rewrite world_eta|].
    split; [apply same_but_refl|]. split; [reflexivity | discriminate].
Qed.

(** X4: what is stored need not be an envelope.  A JSON value without a
    [timestamp] (an object that lacks it, an array, a number, a string)
    counts as expired: the entry is removed and the read gives nothing.
    The JSON value [null] makes the read give nothing too, but its entry
    stays in the storage. *)
Theorem getCachedData_not_an_envelope :
  (forall (w : World) (text : string) (j : json),
     getItem "portfolio_data" (sessionStorage w) = Ok (Some text) ->
     JSON_parse text = Some j ->
     Get (VJson j) "timestamp" = Ok VUndefined ->
     exists st' : Storage,
       getCachedData CONFIG w = (with_storage st' w, Ok VNull)
       /\ items st' !! "portfolio_data" = None)
  /\ (forall (w : World) (text : string),
        getItem "portfolio_data" (sessionStorage w) = Ok (Some text) ->
        JSON_parse text = Some JNull ->
        getCachedData CONFIG w = (w, Ok VNull)).
Proof.
  split.
  - intros w text j Hget Hparse Hts.
    destruct (Get_defined _ _ _ "data" Hts) as [data Hdata].
    destruct (getItem_removeItem _ _ _ Hget) as [st' Hrem].
    exists st'. split; [|apply (removeItem_gone _ _ _ Hrem)].
    unfold getCachedData, try_catch, storage_getItem, mbind, M_bind. rewrite Hget.
    destruct text as [|c r]; [rewrite JSON_parse_empty in Hparse; discriminate|].
    unfold lift, parse. rewrite Hparse, Hdata, Hts.
    unfold Date_now, gets, still_valid. cbn [ToNumber].
    unfold storage_removeItem. rewrite Hrem. reflexivity.
  - intros w text Hget Hparse.
    unfold getCachedData, try_catch, storage_getItem, mbind, M_bind. rewrite Hget.
    destruct text as [|c r]; [reflexivity|].
    unfold lift, parse. rewrite Hparse. reflexivity.
Qed.

End CacheSafety.

(** ** More on the fetcher *)

Section FetcherOutcomes.

Context `{Platform}.


End FetcherOutcomes.

(** ** More on the loader *)

Section LoaderOutcomes.

Context `{Platform}.
Variable CONFIG : Config.
Variable SAMPLE_DATA : jsval.








(** X5: with a valid entry in the cache whose data is truthy, a load takes
    its data from the cache and the world stays exactly as it was: no
    request is made, whatever the network would do, and no time passes. *)
Theorem resolveData_cache_hit (w : World) (text : string) (d : json) (t : Z) :
  USE_SAMPLE_DATA CONFIG = false ->
  getItem "portfolio_data" (sessionStorage w) = Ok (Some text) ->
  JSON_parse text = Some (envelope (VJson d) t) ->
  clock w - t < CACHE_DURATION CONFIG ->
  truthy (VJson d) = true ->
  resolveData CONFIG SAMPLE_DATA w = (w, Ok (VJson d)).
Proof.
  intros Hmode Hget Hparse Hfresh Htruthy.
  unfold resolveData. rewrite Hmode. unfold mbind, M_bind.
  rewrite (getCachedData_valid CONFIG w text d t Hget Hparse Hfresh), Htruthy.
  reflexivity.
Qed.

(** X6: a load that took its data from the API and could store it serves
    every later load from the cache: in any world that holds the storage
    it left, at a time less than [CACHE_DURATION] after the answer, the
    data of a load is the same and no request is made. *)
Theorem second_load_from_cache (w w0 : World) (latency : Z) (response d : json)
    (success : jsval) (st' : Storage) :
  misses_cache CONFIG w w0 ->
  api_answers CONFIG w0 latency response ->
  Get (VJson response) "success" = Ok success ->
  truthy success = true ->
  Get (VJson response) "data" = Ok (VJson d) ->
  truthy (VJson d) = true ->
  JSON_parse (JSON_stringify (envelope (VJson d) (clock w0 + latency)))
    = Some (envelope (VJson d) (clock w0 + latency)) ->
  setItem "portfolio_data" (JSON_stringify (envelope (VJson d) (clock w0 + latency)))
    (sessionStorage w0) = Ok st' ->
  resolveData CONFIG SAMPLE_DATA w
  = (with_storage st' (advance latency w0), Ok (VJson d))
  /\ forall later : World,
       sessionStorage later = st' ->
       clock later - (clock w0 + latency) < CACHE_DURATION CONFIG ->
       resolveData CONFIG SAMPLE_DATA later = (later, Ok (VJson d)).
Proof.
  intros Hmiss Hans Hsuccess Htrue Hdata Htruthy Hcodec Hset.
  split.
  - rewrite (resolveData_accepted CONFIG SAMPLE_DATA w w0 latency response success
               (VJson d) Hmiss Hans Hsuccess Htrue Hdata).
    unfold setCachedData, try_catch, mbind, M_bind, Date_now, gets, storage_setItem.
    cbn [advance clock sessionStorage]. rewrite Hset. reflexivity.
  - intros later Hstorage Hfresh.
    destruct Hmiss as [Hmode _].
    unfold resolveData. rewrite Hmode. unfold mbind, M_bind.
    rewrite (getCachedData_valid CONFIG later
               (JSON_stringify (envelope (VJson d) (clock w0 + latency)))
               d (clock w0 + latency)), ?Htruthy;
      [reflexivity | | exact Hcodec | exact Hfresh].
    rewrite Hstorage. apply (setItem_getItem _ _ _ _ Hset).
Qed.

(** X1: in sample mode a load takes the bundled sample after the fixed
    delay of 300 ms and renders it; it reads and writes neither the
    storage nor the network, so the storage is left as it was. *)
Theorem sample_mode_load (w : World) :
  USE_SAMPLE_DATA CONFIG = true ->
  resolveData CONFIG SAMPLE_DATA w = (advance 300 w, Ok SAMPLE_DATA)
  /\ exists final : World,
       loadPortfolioData CONFIG SAMPLE_DATA w = (final, Ok tt)
       /\ sessionStorage final = sessionStorage w
       /\ clock final = clock w + 300
       /\ network final = network w.
Proof.
  intros Hmode.
  assert (Hresolve : resolveData CONFIG SAMPLE_DATA w = (advance 300 w, Ok SAMPLE_DATA)).
  { unfold resolveData. rewrite Hmode. reflexivity. }
  split; [exact Hresolve|].
  unfold loadPortfolioData, try_catch, mbind at 1, M_bind at 1. rewrite Hresolve.
  destruct (renderData_renders_only SAMPLE_DATA (advance 300 w)) as (Hs & Hc & Hn & _).
  destruct (renderData SAMPLE_DATA (advance 300 w)) as [w2 [[]|e]]; cbn in Hs, Hc, Hn.
  - eexists. split; [reflexivity|]. repeat split; assumption.
  - eexists. split; [reflexivity|].
    cbn [sessionStorage clock network with_document record log_error].
    repeat split; assumption.
Qed.

End LoaderOutcomes.

(** ** More on the profile *)

Section ProfileSafety.

Context `{Platform}.




End ProfileSafety.

(** ** A failure of the render phase *)

Section RenderFailure.

Context `{Platform}.
Variable CONFIG : Config.
Variable SAMPLE_DATA : jsval.



End RenderFailure.

(** ** More on the lists *)

Lemma update_absent (r : region) (f : Elem -> Elem) (d : Dom) :
  getElementById r d = None -> update r f d = d.
Proof.
  destruct r, d as [a b c i j k l m]; cbn; intros ->; reflexivity.
Qed.

(** What [renderProjects] does to the document, with or without a grid. *)
Lemma renderProjects_document (ps : list json) :
  ps ≠ [] ->
  Forall (fun p => is_project p = true) ps ->
  exists cards : list Node,
    length cards = length ps
    /\ (forall (i : nat) (p : json),
          ps !! i = Some p ->
          exists e : Elem,
            cards !! i = Some (El e)
            /\ createProjectCard (VJson p) i = Ok (El e))
    /\ forall w : World,
         snd (renderProjects (VJson (JArr ps)) w) = Ok tt
         /\ document (fst (renderProjects (VJson (JArr ps)) w))
            = update ProjectsGrid (set_childNodes cards) (document w).
Proof.
  intros Hsome Hps.
  destruct (forEach_cards ps Hps 0) as [cards [Hlen [Hcards Hrun]]].
  exists cards. split; [exact Hlen|].
  split.
  { intros i p Hi. destruct (Hcards i p Hi) as (e & He & Hcard & _). eauto. }
  intros w.
  destruct (projects_grid (document w)) as [grid|] eqn:Hgrid.
  - assert (Hrender :
      renderProjects (VJson (JArr ps)) w
      = (with_document (update ProjectsGrid (set_childNodes cards))
           (record (CallRenderProjects (VJson (JArr ps))) w), Ok tt)).
    { unfold renderProjects.
      unfold mbind at 1, M_bind at 1, modify at 1.
      unfold mbind at 1, M_bind at 1, present, gets.
      cbn [record document]. unfold getElementById. rewrite Hgrid.
      rewrite bool_decide_true by eauto.
      cbn [negb orb truthy]. unfold mbind at 1, M_bind at 1, lift.
      cbn [Get String.eqb Ascii.eqb Bool.eqb].
      destruct ps as [|p ps]; [contradiction|].
      cbn [length Z.of_nat is_zero].
      unfold mbind at 1, M_bind at 1, modify at 1.
      unfold array_forEach, forEach.
      apply (Hrun [] _). }
    rewrite Hrender. split; reflexivity.
  - assert (Hrender :
      renderProjects (VJson (JArr ps)) w
      = (record (CallRenderProjects (VJson (JArr ps))) w, Ok tt)).
    { unfold renderProjects.
      unfold mbind at 1, M_bind at 1, modify at 1.
      unfold mbind at 1, M_bind at 1, present, gets.
      cbn [record document]. unfold getElementById. rewrite Hgrid.
      rewrite bool_decide_false by (intros [? [=]]). reflexivity. }
    rewrite Hrender. cbn [fst snd record document].
    rewrite update_absent by exact Hgrid. split; reflexivity.
Qed.

(** X11: [renderProjects] replaces the content of the grid: what it
    leaves does not depend on what the grid held before, so rendering the
    same projects a second time changes nothing in the document. *)
Theorem renderProjects_replaces (ps : list json) :
  ps ≠ [] ->
  Forall (fun p => is_project p = true) ps ->
  (forall (w : World) (kids : list Node),
     document (fst (renderProjects (VJson (JArr ps))
                      (with_document (update ProjectsGrid (set_childNodes kids)) w)))
     = document (fst (renderProjects (VJson (JArr ps)) w)))
  /\ (forall w : World,
        document (fst (renderProjects (VJson (JArr ps))
                         (fst (renderProjects (VJson (JArr ps)) w))))
        = document (fst (renderProjects (VJson (JArr ps)) w))).
Proof.
  intros Hsome Hps.
  destruct (renderProjects_document ps Hsome Hps) as (cards & _ & _ & Hrun).
  split.
  - intros w kids.
    rewrite (proj2 (Hrun _)), (proj2 (Hrun w)).
    cbn [document with_document]. rewrite update_update. reflexivity.
  - intros w.
    rewrite (proj2 (Hrun _)), (proj2 (Hrun w)).
    rewrite update_update. reflexivity.
Qed.





(** ** The observers' fallbacks *)

Lemma some_element_map (p : Elem -> bool) (f : Elem -> Elem) :
  (forall e : Elem, p (f e) = false) ->
  (forall e : Elem, childNodes (f e) = childNodes e) ->
  forall n : Node, some_element p (map_elements f n) = false.
Proof.
  intros Hp Hkids. induction n as [s|g|e IH] using Node_nested_ind;
    [reflexivity | reflexivity |].
  cbn [map_elements some_element]. rewrite Hp, Hkids. cbn [orb set_childNodes childNodes].
  induction IH as [|k ks Hk _ IHks]; [reflexivity|].
  cbn [map existsb]. rewrite Hk. exact IHks.
Qed.

Lemma in_document_map (p : Elem -> bool) (f : Elem -> Elem) (d : Dom) :
  (forall e : Elem, p (f e) = false) ->
  (forall e : Elem, childNodes (f e) = childNodes e) ->
  in_document p (map_document f d) = false.
Proof.
  intros Hp Hkids.
  assert (Hone : forall e : Elem,
            some_element p (El (f (set_childNodes (map (map_elements f) (childNodes e)) e)))
            = false).
  { intros e. apply (some_element_map p f Hp Hkids (El e)). }
  destruct d as [a b c i j k l m]. unfold in_document, region_elements, map_document.
  cbn [hero_name hero_title hero_description logo_initial logo_name footer_text
       projects_grid contact_links map_elements].
  destruct a, b, c, i, j, k, l, m; cbn [omap list_omap id existsb];
    rewrite ?Hone; reflexivity.
Qed.

Lemma has_class_add_other (c token : string) (e : Elem) :
  has_class c (classList_add token e) = has_class c e || (String.eqb c token && negb (has_class token e)).
Proof.
  unfold has_class, classList_add. cbn [classList].
  destruct (existsb (String.eqb token) (classList e)); cbn.
  - now rewrite andb_false_r, orb_false_r.
  - rewrite existsb_app. cbn. now rewrite orb_false_r, andb_true_r.
Qed.

Section Fallbacks.

Context `{Platform}.

(** X13: lazy loading.  With [IntersectionObserver] the images are only
    observed and the document stays as it is.  Without it every image of
    the page is loaded at once: no [img] in a region of the page keeps a
    non-empty [data-src]. *)
Theorem initLazyLoading_loads_all (w : World) :
  snd (initLazyLoading w) = Ok tt
  /\ (IntersectionObserver_in_window = true ->
      document (fst (initLazyLoading w)) = document w)
  /\ (IntersectionObserver_in_window = false ->
      in_document pending_image (document (fst (initLazyLoading w))) = false).
Proof.
  unfold initLazyLoading, mbind, M_bind, modify.
  destruct IntersectionObserver_in_window; (split; [reflexivity|]);
    (split; [|]); intros E; try discriminate E; [reflexivity|].
  cbn [fst document with_document record].
  apply in_document_map.
  - intros e. unfold pending_image.
    destruct (String.eqb (tagName e) "img") eqn:Etag; cbn [andb];
      [|now rewrite Etag].
    destruct (getAttribute "data-src" e) as [[|c src]|] eqn:Esrc.
    + rewrite bool_decide_true by eauto. unfold loadImage. rewrite Esrc, Etag, Esrc.
      reflexivity.
    + rewrite bool_decide_true by eauto. unfold loadImage. rewrite Esrc.
      unfold classList_add, removeAttribute, setAttribute, getAttribute.
      cbn [tagName attributes]. rewrite own_removed. apply andb_false_r.
    + rewrite bool_decide_false by (intros [? [=]]). rewrite Etag, Esrc. reflexivity.
  - intros e. destruct (_ && _); [|reflexivity].
    unfold loadImage. destruct (getAttribute "data-src" e) as [[|c src]|]; reflexivity.
Qed.

(** X14: scroll animations.  With [IntersectionObserver] the elements are
    only observed and the document stays as it is.  Without it every
    element that fades in is made visible at once: no element in a region
    of the page has the class [fade-in] without the class [visible]. *)
Theorem initScrollAnimations_reveals_all (w : World) :
  snd (initScrollAnimations w) = Ok tt
  /\ (IntersectionObserver_in_window = true ->
      document (fst (initScrollAnimations w)) = document w)
  /\ (IntersectionObserver_in_window = false ->
      in_document unrevealed (document (fst (initScrollAnimations w))) = false).
Proof.
  unfold initScrollAnimations, mbind, M_bind, modify.
  destruct IntersectionObserver_in_window; (split; [reflexivity|]);
    (split; [|]); intros E; try discriminate E; [reflexivity|].
  cbn [fst document with_document record].
  apply in_document_map.
  - intros e. unfold unrevealed.
    destruct (has_class "fade-in" e) eqn:Efade; cbn [andb].
    + destruct (has_class "visible" e) eqn:Evis; cbn [negb].
      * now rewrite Efade, Evis.
      * rewrite !has_class_add_other, Efade, Evis. reflexivity.
    + now rewrite Efade.
  - intros e. destruct (_ && _); [|reflexivity].
    unfold classList_add. reflexivity.
Qed.

End Fallbacks.




Section EagerImages.

Context `{Platform}.



End EagerImages.

(** ** Separators in the tags *)

Lemma split_pieces_free (sep : ascii) (s : string) :
  Forall (fun t => has_char sep t = false) (JsString.split sep s).
Proof.
  induction s as [|c r IH]; cbn [JsString.split]; [repeat constructor|].
  destruct (Ascii.eqb c sep) eqn:Ec.
  - constructor; [reflexivity | exact IH].
  - destruct (JsString.split sep r) as [|p ps]; [repeat constructor; cbn; now rewrite Ec|].
    inversion IH as [|? ? Hp Hps]; subst.
    constructor; [cbn; now rewrite Ec, Hp | exact Hps].
Qed.

Lemma split_length (sep : ascii) (s : string) :
  length (JsString.split sep s) = S (count_char sep s).
Proof.
  induction s as [|c r IH]; cbn [JsString.split count_char]; [reflexivity|].
  destruct (Ascii.eqb c sep); [cbn; now rewrite IH|].
  destruct (JsString.split sep r) as [|p ps]; [discriminate IH | exact IH].
Qed.

Lemma trimStart_free (c : ascii) (s : string) :
  has_char c s = false -> has_char c (JsString.trimStart s) = false.
Proof.
  induction s as [|a r IH]; cbn; [reflexivity|].
  intros E. apply orb_false_elim in E as [Ea Er].
  destruct (JsString.is_ws a); [exact (IH Er)|]. cbn. now rewrite Ea, Er.
Qed.

Lemma trimEnd_free (c : ascii) (s : string) :
  has_char c s = false -> has_char c (JsString.trimEnd s) = false.
Proof.
  induction s as [|a r IH]; cbn; [reflexivity|].
  intros E. apply orb_false_elim in E as [Ea Er].
  destruct (JsString.is_ws a && JsString.is_empty (JsString.trimEnd r)); [reflexivity|].
  cbn. now rewrite Ea, (IH Er).
Qed.

(** X16: tags given as a string: no tag of the card contains a comma, and
    there are at most as many tags as the string has commas, plus one. *)
Theorem card_tags_separated (s : string) :
  exists ts : list string,
    card_tags (VStr s) = Ok (JStr <$> ts)
    /\ Forall (fun t => has_char "," t = false) ts
    /\ (length ts <= S (count_char "," s))%nat.
Proof.
  exists (List.filter (fun t => negb (JsString.is_empty t))
            (JsString.trim <$> JsString.split "," s)).
  split; [destruct s; reflexivity|]. split.
  - assert (Hpieces := split_pieces_free "," s).
    induction Hpieces as [|p ps Hp _ IH]; cbn; [constructor|].
    destruct (JsString.is_empty (JsString.trim p)); cbn; [exact IH|].
    constructor; [|exact IH].
    apply trimEnd_free, trimStart_free, Hp.
  - rewrite <- (split_length "," s).
    etransitivity; [apply List.filter_length_le|]. now rewrite length_fmap.
Qed.

(** ** Navigation *)

Lemma has_class_remove (token : string) (e : Elem) :
  has_class token (classList_remove token e) = false.
Proof.
  unfold has_class, classList_remove. cbn [classList].
  induction (classList e) as [|c cs IH]; [reflexivity|].
  cbn [List.filter]. destruct (String.eqb token c) eqn:E; cbn; [exact IH|].
  now rewrite E.
Qed.

Lemma has_class_add (token : string) (e : Elem) :
  has_class token (classList_add token e) = true.
Proof.
  rewrite has_class_add_other, String.eqb_refl.
  destruct (has_class token e); reflexivity.
Qed.

Lemma has_class_toggle (token : string) (e : Elem) :
  has_class token (classList_toggle token e) = negb (has_class token e).
Proof.
  unfold classList_toggle. fold (has_class token e).
  destruct (has_class token e) eqn:E; cbn [negb];
    [apply has_class_remove | apply has_class_add].
Qed.

(** X19: the toggle and the menu open and close together.  If both are
    active or both are not, they still are after any sequence of clicks;
    a click on the toggle flips the state of the menu, a click on a link
    or outside of the toggle and the menu closes it, and a click inside
    them leaves it.  Without a toggle or without a menu no listener is
    added and nothing ever changes. *)
Theorem navigation_in_sync :
  (forall (evs : list NavEvent) (c : Chrome),
     is_active (nav_toggle c) = is_active (nav_menu c) ->
     is_active (nav_toggle (navigation_run evs c))
     = is_active (nav_menu (navigation_run evs c)))
  /\ (forall c : Chrome,
        initNavigation c = true ->
        is_active (nav_menu (navigation_listener ToggleClick c))
        = negb (is_active (nav_menu c))
        /\ is_active (nav_menu (navigation_listener LinkClick c)) = false
        /\ is_active (nav_menu (navigation_listener (DocumentClick false false) c)) = false)
  /\ (forall (c : Chrome) (in_toggle in_menu : bool),
        in_toggle || in_menu = true ->
        navigation_listener (DocumentClick in_toggle in_menu) c = c)
  /\ (forall (evs : list NavEvent) (c : Chrome),
        initNavigation c = false -> navigation_run evs c = c).
Proof.
  split; [|split; [|split]].
  - induction evs as [|ev evs IH]; intros c Hsync; [exact Hsync|].
    cbn [navigation_run fold_left]. apply IH.
    unfold navigation_listener, initNavigation.
    destruct (nav_toggle c) as [t|] eqn:Et, (nav_menu c) as [m|] eqn:Em;
      cbn [bool_decide andb]; rewrite ?bool_decide_true, ?bool_decide_false
        by (first [eauto | intros [? [=]]]); cbn [andb]; rewrite ?Et, ?Em; try exact Hsync.
    cbn [is_active] in Hsync.
    destruct ev as [| |in_toggle in_menu].
    + cbn [on_toggle_and_menu nav_toggle nav_menu]. rewrite Et, Em. cbn [fmap option_fmap option_map is_active].
      now rewrite !has_class_toggle, Hsync.
    + cbn [on_toggle_and_menu nav_toggle nav_menu]. rewrite Et, Em. cbn [fmap option_fmap option_map is_active].
      now rewrite !has_class_remove.
    + destruct (negb in_toggle && negb in_menu); [|now rewrite Et, Em].
      cbn [on_toggle_and_menu nav_toggle nav_menu]. rewrite Et, Em. cbn [fmap option_fmap option_map is_active].
      now rewrite !has_class_remove.
  - intros c Hwired. unfold navigation_listener. rewrite Hwired.
    unfold initNavigation in Hwired.
    destruct (nav_menu c) as [m|] eqn:Em;
      [|rewrite (bool_decide_false (is_Some None)) in Hwired by (intros [? [=]]);
        now rewrite andb_false_r in Hwired].
    cbn [negb andb on_toggle_and_menu nav_menu]. rewrite Em.
    cbn [fmap option_fmap option_map is_active].
    rewrite has_class_toggle, !has_class_remove. repeat split.
  - intros c in_toggle in_menu Hinside. unfold navigation_listener.
    destruct (initNavigation c); [|reflexivity].
    destruct in_toggle, in_menu; try discriminate; reflexivity.
  - induction evs as [|ev evs IH]; intros c Hnone; [reflexivity|].
    cbn [navigation_run fold_left]. unfold navigation_listener at 2. rewrite Hnone.
    apply IH, Hnone.
Qed.

(** ** Scroll effects *)

Lemma frameCallback_run (c : Chrome) :
  match navbar c with
  | Some bar =>
      frameCallback c
      = (set_ticking false
           (set_nav_links
              (mark_link (current_section (bar_height bar) (scrollY c) (sections_with_id c))
                 <$> nav_links c)
              (set_navbar (Some (mkBar (bar_height bar) (background_at (scrollY c)))) c)),
         Ok tt)
  | None =>
      frameCallback c
      = (c, Throw (TypeError "Cannot read properties of null (reading 'style')"))
  end.
Proof.
  unfold frameCallback, mbind, M_bind, updateNavbar, updateActiveLink, modify.
  destruct (navbar c) as [bar|]; reflexivity.
Qed.

Lemma scroll_step_at_most_one (c : Chrome) (ev : ScrollEvent) :
  at_most_one_frame c -> at_most_one_frame (scroll_step c ev).
Proof.
  unfold at_most_one_frame. intros Hc. destruct ev as [y|]; cbn [scroll_step].
  - unfold onScroll. cbn [ticking set_scrollY].
    destruct (ticking c) eqn:Et; cbn [fst ticking frames set_ticking set_frames set_scrollY].
    + now rewrite Et.
    + lia.
  - destruct (frames c) as [|n] eqn:Ef; [now rewrite Ef|].
    assert (Hrun := frameCallback_run (set_frames n c)). cbn [navbar set_frames] in Hrun.
    destruct (navbar c) as [bar|]; rewrite Hrun; cbn; destruct (ticking c); lia.
Qed.

Lemma scroll_step_throttled (c : Chrome) (ev : ScrollEvent) :
  is_Some (navbar c) -> throttled c ->
  is_Some (navbar (scroll_step c ev)) /\ throttled (scroll_step c ev).
Proof.
  unfold throttled. intros [bar Hbar] Hc. destruct ev as [y|]; cbn [scroll_step].
  - unfold onScroll. cbn [ticking set_scrollY].
    destruct (ticking c) eqn:Et; cbn [fst navbar ticking frames set_ticking set_frames set_scrollY].
    + rewrite Hbar, Et. eauto.
    + rewrite Hbar, Hc. eauto.
  - destruct (frames c) as [|n] eqn:Ef; [rewrite Hbar, Ef; eauto|].
    assert (Hrun := frameCallback_run (set_frames n c)). cbn [navbar set_frames] in Hrun.
    rewrite Hbar in Hrun. rewrite Hrun. cbn.
    destruct (ticking c); [|discriminate Hc]. injection Hc as ->. eauto.
Qed.

Lemma scrolls_while_ticking (ys : list Z) (c : Chrome) (y : Z) :
  ticking c = true ->
  scroll_run (Scrolled <$> (ys ++ [y])%list) c = set_scrollY y c.
Proof.
  revert c. induction ys as [|y' ys IH]; intros c Ht.
  - cbn. unfold onScroll. cbn [ticking set_scrollY]. now rewrite Ht.
  - cbn [app fmap list_fmap scroll_run fold_left scroll_step].
    unfold onScroll at 1. cbn [ticking set_scrollY]. rewrite Ht. cbn [fst].
    etransitivity; [apply (IH (set_scrollY y' c)); exact Ht|]. reflexivity.
Qed.

(** X17: the scroll listener holds back the updates.  However many scroll
    events arrive, at most one callback waits for the next frame, and only
    while [ticking] is set.  On a page with a navbar the throttle is
    re-armed by every frame; and the frame that follows a burst of scroll
    events updates the page once, for the last position of the burst:
    the background of the navbar and the active link are those of that
    position. *)
Theorem scroll_throttle :
  (forall (evs : list ScrollEvent) (c : Chrome),
     at_most_one_frame c -> at_most_one_frame (scroll_run evs c))
  /\ (forall (evs : list ScrollEvent) (c : Chrome),
        is_Some (navbar c) -> throttled c ->
        is_Some (navbar (scroll_run evs c)) /\ throttled (scroll_run evs c))
  /\ (forall (ys : list Z) (y : Z) (c : Chrome) (bar : Bar),
        navbar c = Some bar ->
        ticking c = false ->
        frames c = 0%nat ->
        scroll_run ((Scrolled <$> (ys ++ [y])%list) ++ [AnimationFrame])%list c
        = set_ticking false
            (set_nav_links
               (mark_link (current_section (bar_height bar) y (sections_with_id c))
                  <$> nav_links c)
               (set_navbar (Some (mkBar (bar_height bar) (background_at y)))
                  (set_scrollY y c)))).
Proof.
  split; [|split].
  - induction evs as [|ev evs IH]; intros c Hc; [exact Hc|].
    cbn [scroll_run fold_left]. apply IH, scroll_step_at_most_one, Hc.
  - induction evs as [|ev evs IH]; intros c Hbar Hc; [now split|].
    cbn [scroll_run fold_left].
    destruct (scroll_step_throttled c ev Hbar Hc) as [Hbar' Hc'].
    apply (IH _ Hbar' Hc').
  - intros ys y c bar Hbar Hidle Hframes.
    unfold scroll_run. rewrite fold_left_app. fold (scroll_run (Scrolled <$> (ys ++ [y])%list) c).
    assert (Hburst : scroll_run (Scrolled <$> (ys ++ [y])%list) c
                     = set_scrollY y (set_ticking true (set_frames 1 c))).
    { destruct ys as [|y0 ys].
      - cbn. unfold onScroll. cbn [ticking set_scrollY]. rewrite Hidle.
        cbn [fst frames set_scrollY]. rewrite Hframes. reflexivity.
      - cbn [app fmap list_fmap scroll_run fold_left scroll_step].
        unfold onScroll at 1. cbn [ticking set_scrollY]. rewrite Hidle. cbn [fst].
        etransitivity; [apply scrolls_while_ticking; reflexivity|].
        cbn [frames set_scrollY]. rewrite Hframes. reflexivity. }
    rewrite Hburst. cbn [fold_left scroll_step frames set_scrollY set_ticking set_frames].
    assert (Hrun := frameCallback_run
                      (set_frames 0 (set_scrollY y (set_ticking true (set_frames 1 c))))).
    cbn [navbar set_frames set_scrollY set_ticking] in Hrun. rewrite Hbar in Hrun.
    rewrite Hrun. cbn [fst].
    destruct c as [nb secs links tg mn sy tk fr]. cbn in Hframes. subst fr.
    reflexivity.
Qed.

(** X18: on a page without a navbar the first frame callback throws
    before it clears [ticking].  From then on [ticking] stays set, no
    scroll event schedules a callback any more, and the links are never
    marked. *)
Theorem scroll_stalls_without_navbar (c : Chrome) (y : Z) :
  navbar c = None ->
  ticking c = false ->
  frames c = 0%nat ->
  forall evs : list ScrollEvent,
    let stalled := scroll_run (Scrolled y :: AnimationFrame :: evs) c in
    ticking stalled = true
    /\ frames stalled = 0%nat
    /\ nav_links stalled = nav_links c
    /\ navbar stalled = None.
Proof.
  intros Hbar Hidle Hframes evs.
  assert (Hstuck : forall (evs : list ScrollEvent) (c' : Chrome),
            navbar c' = None -> ticking c' = true -> frames c' = 0%nat ->
            ticking (scroll_run evs c') = true
            /\ frames (scroll_run evs c') = 0%nat
            /\ nav_links (scroll_run evs c') = nav_links c'
            /\ navbar (scroll_run evs c') = None).
  { clear. induction evs as [|ev evs IH]; intros c' Hbar Ht Hf; [now repeat split|].
    change (scroll_run (ev :: evs) c') with (scroll_run evs (scroll_step c' ev)).
    assert (Hstep : navbar (scroll_step c' ev) = None
                    /\ ticking (scroll_step c' ev) = true
                    /\ frames (scroll_step c' ev) = 0%nat
                    /\ nav_links (scroll_step c' ev) = nav_links c').
    { destruct ev as [y|]; cbn [scroll_step].
      - unfold onScroll. cbn [ticking set_scrollY]. rewrite Ht. now repeat split.
      - rewrite Hf. now repeat split. }
    destruct Hstep as (Hbar' & Ht' & Hf' & Hlinks).
    destruct (IH _ Hbar' Ht' Hf') as (? & ? & ? & ?).
    repeat split; try assumption. congruence. }
  destruct c as [nb secs links tg mn sy tk fr]. cbn in Hbar, Hidle, Hframes. subst.
  intros stalled. subst stalled.
  change (scroll_run (Scrolled y :: AnimationFrame :: evs) ?c0)
    with (scroll_run evs (scroll_step (scroll_step c0 (Scrolled y)) AnimationFrame)).
  match goal with
  | |- context [scroll_run evs ?c1] =>
      destruct (Hstuck evs c1) as (Ht & Hf & Hlinks & Hnone); [reflexivity ..|]
  end.
  split; [exact Ht|]. split; [exact Hf|]. split; [exact Hlinks | exact Hnone].
Qed.

(** ** The active link *)

Lemma current_section_last (navHeight y : Z) (sections : list Box) (init : string) :
  fold_left
    (fun current section =>
       if in_view navHeight y section then section_id section else current)
    sections init
  = match last (List.filter (in_view navHeight y) sections) with
    | Some section => section_id section
    | None => init
    end.
Proof.
  revert init. induction sections as [|s sections IH]; intros init; [reflexivity|].
  cbn [fold_left List.filter]. rewrite IH.
  destruct (in_view navHeight y s); [|reflexivity].
  rewrite last_cons. destruct (last _); reflexivity.
Qed.

Lemma has_class_remove_other (c token : string) (e : Elem) :
  c ≠ token -> has_class c (classList_remove token e) = has_class c e.
Proof.
  intros Hne. unfold has_class, classList_remove. cbn [classList].
  induction (classList e) as [|x xs IH]; [reflexivity|].
  cbn [List.filter existsb]. destruct (String.eqb token x) eqn:E; cbn [negb existsb].
  - apply String.eqb_eq in E as <-.
    apply String.eqb_neq in Hne. now rewrite Hne.
  - now rewrite IH.
Qed.

(** X20: [updateActiveLink] marks the links of the section in view.  The
    current section is the last one, in document order, whose range
    holds the scroll position, or none.  Afterwards a link has the class
    [active] exactly when its [href] is [#] followed by the [id] of the
    current section; with no section in view these are the links whose
    [href] is [#] alone.  The other classes and the attributes of the
    links are untouched.  On a page without a navbar it throws and
    changes nothing. *)
Theorem updateActiveLink_marks :
  (forall (c : Chrome) (bar : Bar),
     navbar c = Some bar ->
     exists current : string,
       updateActiveLink c
       = (set_nav_links (mark_link current <$> nav_links c) c, Ok tt)
       /\ current
          = match last (List.filter (in_view (bar_height bar) (scrollY c))
                          (sections_with_id c)) with
            | Some section => section_id section
            | None => EmptyString
            end)
  /\ (forall (current : string) (link : Elem),
        has_class "active" (mark_link current link)
        = bool_decide (getAttribute "href" link = Some ("#" +:+ current))
        /\ attributes (mark_link current link) = attributes link
        /\ forall cl : string,
             cl ≠ "active" ->
             has_class cl (mark_link current link) = has_class cl link)
  /\ (forall c : Chrome,
        navbar c = None ->
        exists e : JsError, updateActiveLink c = (c, Throw e)).
Proof.
  split; [|split].
  - intros c bar Hbar. eexists. split.
    + unfold updateActiveLink. rewrite Hbar. reflexivity.
    + apply current_section_last.
  - intros current link. unfold mark_link.
    change (getAttribute "href" (classList_remove "active" link))
      with (getAttribute "href" link).
    destruct (bool_decide (getAttribute "href" link = Some ("#" +:+ current))).
    + split; [apply has_class_add|]. split; [reflexivity|].
      intros cl Hne. rewrite has_class_add_other.
      apply String.eqb_neq in Hne as Hne'. rewrite Hne'. cbn [andb].
      rewrite orb_false_r. now apply has_class_remove_other.
    + split; [apply has_class_remove|]. split; [reflexivity|].
      intros cl Hne. now apply has_class_remove_other.
  - intros c Hbar. unfold updateActiveLink. rewrite Hbar. eauto.
Qed.

(** ** Instances of the further properties *)

Lemma sample_mode_load_witness :
  exists final : World,
    loadPortfolioData (H := Reference.platform) Fixture.sample_mode (VJson Sample.data)
      (Sample.world Sample.full_storage Hangs) = (final, Ok tt)
    /\ sessionStorage final = Sample.full_storage
    /\ clock final = 1700000000300.
Proof.
  destruct (sample_mode_load (H := Reference.platform) Fixture.sample_mode (VJson Sample.data)
              (Sample.world Sample.full_storage Hangs) eq_refl)
    as (_ & final & Hload & Hstorage & Hclock & _).
  exists final. repeat split; assumption.
Defined.

Lemma getCachedData_not_an_envelope_witness :
  let w := Sample.world (Fixture.holding (JArr [JNum 1])) Hangs in
  let w' := Sample.world (Fixture.holding JNull) Hangs in
  (exists st' : Storage,
     getCachedData (H := Reference.platform) Sample.config w = (with_storage st' w, Ok VNull)
     /\ items st' !! "portfolio_data" = None)
  /\ getCachedData (H := Reference.platform) Sample.config w' = (w', Ok VNull).
Proof.
  intros w w'. split.
  - apply (proj1 (getCachedData_not_an_envelope (H := Reference.platform) Sample.config)
             w (Reference.stringify (JArr [JNum 1])) (JArr [JNum 1]));
      vm_compute; reflexivity.
  - apply (proj2 (getCachedData_not_an_envelope (H := Reference.platform) Sample.config)
             w' (Reference.stringify JNull));
      vm_compute; reflexivity.
Defined.

Lemma resolveData_cache_hit_witness :
  let w := Sample.world (Fixture.holding (envelope (VJson Sample.data) 1699999999000))
             (Fails 10 "offline") in
  resolveData (H := Reference.platform) Sample.config VUndefined w
  = (w, Ok (VJson Sample.data)).
Proof.
  intros w.
  apply (resolveData_cache_hit (H := Reference.platform) Sample.config VUndefined w
           (Reference.stringify (envelope (VJson Sample.data) 1699999999000))
           Sample.data 1699999999000);
    vm_compute; reflexivity.
Defined.

Lemma second_load_from_cache_witness :
  let w := Sample.world Sample.storage
             (Responds 120 (Reference.stringify Sample.acceptance)) in
  let w1 := fst (resolveData (H := Reference.platform) Sample.config VUndefined w) in
  let later := Sample.world (sessionStorage w1) (Fails 10 "offline") in
  resolveData (H := Reference.platform) Sample.config VUndefined later
  = (later, Ok (VJson Sample.data)).
Proof.
  intros w w1 later.
  refine (proj2 (second_load_from_cache (H := Reference.platform) Sample.config VUndefined
                   w w 120 Sample.acceptance Sample.data (VJson (JBool true))
                   (sessionStorage w1) _ _ _ _ _ _ _ _) later _ _).
  - apply sample_miss.
  - apply sample_answers; [lia | vm_compute; reflexivity].
  - reflexivity.
  - reflexivity.
  - reflexivity.
  - reflexivity.
  - vm_compute. reflexivity.
  - vm_compute. reflexivity.
  - reflexivity.
  - vm_compute. reflexivity.
Defined.



Lemma renderProjects_replaces_witness :
  let w := Sample.world Sample.storage Hangs in
  document (fst (renderProjects (VJson (JArr Fixture.projects))
                   (fst (renderProjects (VJson (JArr Fixture.projects)) w))))
  = document (fst (renderProjects (VJson (JArr Fixture.projects)) w)).
Proof.
  intros w.
  apply (proj2 (renderProjects_replaces Fixture.projects
                  ltac:(discriminate) ltac:(repeat constructor))).
Defined.


Lemma initLazyLoading_loads_all_witness :
  let w := fst (renderProjects (VJson (JArr Fixture.projects))
                  (Sample.world Sample.storage Hangs)) in
  in_document pending_image (document w) = true
  /\ in_document pending_image
       (document (fst (initLazyLoading (H := Fixture.legacy) w))) = false.
Proof.
  intros w. split; [vm_compute; reflexivity|].
  apply (proj2 (proj2 (initLazyLoading_loads_all (H := Fixture.legacy) w))).
  reflexivity.
Defined.

Lemma initScrollAnimations_reveals_all_witness :
  let w := fst (renderProjects (VJson (JArr Fixture.projects))
                  (Sample.world Sample.storage Hangs)) in
  in_document unrevealed (document w) = true
  /\ in_document unrevealed
       (document (fst (initScrollAnimations (H := Fixture.legacy) w))) = false.
Proof.
  intros w. split; [vm_compute; reflexivity|].
  apply (proj2 (proj2 (initScrollAnimations_reveals_all (H := Fixture.legacy) w))).
  reflexivity.
Defined.


Lemma scroll_throttle_witness :
  let c := scroll_run [Scrolled 10; Scrolled 400; Scrolled 900; AnimationFrame] Fixture.chrome in
  frames c = 0%nat
  /\ (bar_background <$> navbar c) = Some "rgba(10, 10, 10, 0.95)"
  /\ (has_class "active" <$> nav_links c) = [false; true; false].
Proof.
  intros c.
  assert (E := proj2 (proj2 scroll_throttle) [10; 400] 900 Fixture.chrome
                 (mkBar 60 EmptyString) eq_refl eq_refl eq_refl).
  change (scroll_run ((Scrolled <$> ([10; 400] ++ [900])%list) ++ [AnimationFrame])%list
            Fixture.chrome) with c in E.
  rewrite E. vm_compute. repeat split.
Defined.

Lemma scroll_stalls_without_navbar_witness :
  let c := scroll_run [Scrolled 900; AnimationFrame; Scrolled 10; AnimationFrame]
             Fixture.bare in
  ticking c = true /\ frames c = 0%nat /\ nav_links c = nav_links Fixture.bare.
Proof.
  intros c.
  destruct (scroll_stalls_without_navbar Fixture.bare 900 eq_refl eq_refl eq_refl
              [Scrolled 10; AnimationFrame])
    as (Ht & Hf & Hlinks & _).
  repeat split; assumption.
Defined.

Lemma navigation_in_sync_witness :
  let c := navigation_run [ToggleClick; DocumentClick true false; LinkClick; ToggleClick]
             Fixture.chrome in
  is_active (nav_toggle c) = is_active (nav_menu c).
Proof.
  intros c. apply (proj1 navigation_in_sync). reflexivity.
Defined.

Lemma updateActiveLink_marks_witness :
  exists current : string,
    updateActiveLink (set_scrollY 600 Fixture.chrome)
    = (set_nav_links (mark_link current <$> nav_links Fixture.chrome)
         (set_scrollY 600 Fixture.chrome), Ok tt)
    /\ current = "projects".
Proof.
  destruct (proj1 updateActiveLink_marks (set_scrollY 600 Fixture.chrome)
              (mkBar 60 EmptyString) eq_refl)
    as (current & Hrun & Hcurrent).
  exists current. split; [exact Hrun|]. rewrite Hcurrent. vm_compute. reflexivity.
Defined.
